(** * JMA_DataScraper: value normalisation and record extraction

    A shallow embedding of [get_amedas_progressbar.py] and the proofs of
    its specification.  The Python run-time notions the script relies on
    (text as a sequence of code points, [str.replace], [str.strip],
    the built-in [float], mixed int/float arithmetic, exceptions) are
    embedded in module [Py]; the script itself is embedded in module
    [Amedas], one definition per source function, under the source's names.

    Floats are IEEE binary64 values ([PrimFloat.float]), as in CPython. *)

From Stdlib Require Import ZArith NArith List String Ascii Bool Lia Floats.
From Stdlib Require Import DecimalString.
Import ListNotations.

(* ================================================================== *)
(** * Python run-time model *)
(* ================================================================== *)

Module Py.

(** ** Exceptions and fallible computations *)

(** The exception classes that occur in the script.  [Exception_ msg] is
    a direct instance of [Exception]; [OtherError] stands for any further
    subclass of [Exception]; [SystemExit] is the only one here that does
    not derive from [Exception]. *)
Inductive exn : Type :=
| ValueError
| TypeError
| KeyError
| AttributeError
| IndexError
| OverflowError
| URLError (reason : string)
| Exception_ (msg : string)
| OtherError (name : string)
| SystemExit (code : Z).

Inductive result (A : Type) : Type :=
| Ok (a : A)
| Raise (e : exn).
Arguments Ok {A} a.
Arguments Raise {A} e.

Definition bind {A B} (c : result A) (k : A -> result B) : result B :=
  match c with
  | Ok a => k a
  | Raise e => Raise e
  end.

(** [try: c except (classes): h] where [handles e] tells whether [e] is an
    instance of one of the listed classes. *)
Definition try_except {A} (c : result A) (handles : exn -> bool)
           (h : exn -> result A) : result A :=
  match c with
  | Ok a => Ok a
  | Raise e => if handles e then h e else Raise e
  end.

(** [isinstance(e, Exception)] *)
Definition is_Exception (e : exn) : bool :=
  match e with
  | SystemExit _ => false
  | _ => true
  end.

Definition is_URLError (e : exn) : bool :=
  match e with
  | URLError _ => true
  | _ => false
  end.

(** ** Text *)

(** A Python [str] is a sequence of Unicode code points. *)
Definition pystr : Type := list N.

Local Open Scope N_scope.

(** Literals are written as Rocq strings (UTF-8 bytes) and decoded. *)
Fixpoint utf8_decode (bs : list N) : pystr :=
  match bs with
  | [] => []
  | b :: r =>
    if b <? 0x80 then b :: utf8_decode r
    else if b <? 0xE0 then
      match r with
      | c1 :: r1 => ((b - 0xC0) * 0x40 + (c1 - 0x80)) :: utf8_decode r1
      | _ => []
      end
    else if b <? 0xF0 then
      match r with
      | c1 :: c2 :: r2 =>
        ((b - 0xE0) * 0x1000 + (c1 - 0x80) * 0x40 + (c2 - 0x80))
          :: utf8_decode r2
      | _ => []
      end
    else
      match r with
      | c1 :: c2 :: c3 :: r3 =>
        ((b - 0xF0) * 0x40000 + (c1 - 0x80) * 0x1000
         + (c2 - 0x80) * 0x40 + (c3 - 0x80)) :: utf8_decode r3
      | _ => []
      end
  end.

Definition u (s : string) : pystr :=
  utf8_decode (map N_of_ascii (list_ascii_of_string s)).

(** The empty string literal. *)
Definition empty_str : pystr := [].

Definition pystr_eqb (a b : pystr) : bool :=
  if list_eq_dec N.eq_dec a b then true else false.

(** [x in (a, b, ...)] for a tuple of strings. *)
Definition str_in (x : pystr) (t : list pystr) : bool :=
  existsb (pystr_eqb x) t.

(** A [dict] with string keys, in insertion order. *)
Definition dict (V : Type) : Type := list (pystr * V).

(** [d[k]] *)
Fixpoint dict_getitem {V} (d : dict V) (k : pystr) : result V :=
  match d with
  | [] => Raise KeyError
  | (k', v) :: r => if pystr_eqb k' k then Ok v else dict_getitem r k
  end.

(** [l[i]] for an index [i >= 0]. *)
Definition list_getitem {A} (l : list A) (i : nat) : result A :=
  match nth_error l i with
  | Some a => Ok a
  | None => Raise IndexError
  end.

(** [range(n)] *)
Definition range (n : Z) : list Z := map Z.of_nat (seq 0 (Z.to_nat n)).

(** [Py_UNICODE_ISSPACE]: the code points [str.strip] removes and
    [str.isspace] accepts. *)
Definition Py_UNICODE_ISSPACE (c : N) : bool :=
  ((0x09 <=? c) && (c <=? 0x0D)) || ((0x1C <=? c) && (c <=? 0x20))
  || (c =? 0x85) || (c =? 0xA0) || (c =? 0x1680)
  || ((0x2000 <=? c) && (c <=? 0x200A))
  || (c =? 0x2028) || (c =? 0x2029) || (c =? 0x202F) || (c =? 0x205F)
  || (c =? 0x3000).

Fixpoint dropwhile {A} (p : A -> bool) (l : list A) : list A :=
  match l with
  | [] => []
  | x :: r => if p x then dropwhile p r else l
  end.

Definition lstrip (s : pystr) : pystr := dropwhile Py_UNICODE_ISSPACE s.
Definition rstrip (s : pystr) : pystr :=
  rev (dropwhile Py_UNICODE_ISSPACE (rev s)).

(** [s.strip()] *)
Definition strip (s : pystr) : pystr := rstrip (lstrip s).

Fixpoint startswith (p s : pystr) : bool :=
  match p, s with
  | [], _ => true
  | _ :: _, [] => false
  | a :: p', b :: s' => (a =? b) && startswith p' s'
  end.

(** Left-to-right scan of [s.replace(old, new)] for a non-empty [old];
    [skip] counts the code points of a match still to be dropped. *)
Fixpoint replace_scan (old new : pystr) (skip : nat) (s : pystr) : pystr :=
  match s with
  | [] => []
  | c :: s' =>
    match skip with
    | S k => replace_scan old new k s'
    | O =>
      if startswith old s
      then new ++ replace_scan old new (List.length old - 1) s'
      else c :: replace_scan old new 0 s'
    end
  end.

(** [s.replace(old, new)]; with an empty [old], [new] is inserted before
    every code point and at the end. *)
Definition replace (old new s : pystr) : pystr :=
  match old with
  | [] => new ++ flat_map (fun c => c :: new) s
  | _ :: _ => replace_scan old new 0 s
  end.

(** ** Numbers *)

(** The two numeric types the script produces: [int] and [float]. *)
Inductive pynum : Type :=
| PInt (z : Z)
| PFloat (f : float).

(** The binary64 value nearest to [(-1)^neg * m / d] (ties to even,
    overflow to infinity). *)
Definition round_ratio (neg : bool) (m d : positive) : spec_float :=
  SFdiv prec emax (S754_finite neg m 0) (S754_finite false d 0).

(** [float(z)] for an [int]: [OverflowError] when [z] is out of range. *)
Definition int_to_float (z : Z) : result float :=
  match binary_normalize prec emax z 0 false with
  | S754_infinity _ => Raise OverflowError
  | f => Ok (SF2Prim f)
  end.

(** [a / b] on two [int]s: correctly rounded true division. *)
Definition int_truediv (a b : Z) : result float :=
  match a, b with
  | _, Z0 => Raise (OtherError "ZeroDivisionError")
  | Z0, _ => Ok (if (b <? 0)%Z then neg_zero else zero)
  | Zpos m, Zpos d | Zneg m, Zneg d =>
    match round_ratio false m d with
    | S754_infinity _ => Raise OverflowError
    | f => Ok (SF2Prim f)
    end
  | Zpos m, Zneg d | Zneg m, Zpos d =>
    match round_ratio true m d with
    | S754_infinity _ => Raise OverflowError
    | f => Ok (SF2Prim f)
    end
  end.

(** [x >= 0] for a number [x] and the [int] zero. *)
Definition ge_zero (x : pynum) : bool :=
  match x with
  | PInt z => (0 <=? z)%Z
  | PFloat f => (0 <=? f)%float
  end.

(** [x * n] for an [int] [n]. *)
Definition mul_int (x : pynum) (n : Z) : result pynum :=
  match x with
  | PInt z => Ok (PInt (z * n))
  | PFloat f => bind (int_to_float n) (fun g => Ok (PFloat (f * g)%float))
  end.

(** [x / n] for an [int] [n]. *)
Definition div_int (x : pynum) (n : Z) : result pynum :=
  match x with
  | PInt z => bind (int_truediv z n) (fun q => Ok (PFloat q))
  | PFloat f =>
    bind (int_to_float n) (fun g =>
      if (g =? 0)%float then Raise (OtherError "ZeroDivisionError")
      else Ok (PFloat (f / g)%float))
  end.

(** [time.sleep(seconds)] converts its argument to a signed 64-bit count of
    nanoseconds before it waits: NaN is refused with [ValueError], a count
    out of range with [OverflowError], a negative one with [ValueError].
    The wait itself is taken to succeed. *)
Definition time_sleep_check (seconds : pynum) : result unit :=
  match seconds with
  | PFloat f =>
    if is_nan f then Raise ValueError
    else
      let ns := (f * 1000000000)%float in
      if ((-0x1p+63 <=? ns) && (ns <? 0x1p+63))%float
      then if (ns <? 0)%float then Raise ValueError else Ok tt
      else Raise OverflowError
  | PInt z =>
    if ((- 2 ^ 63 <=? z * 10 ^ 9) && (z * 10 ^ 9 <? 2 ^ 63))%Z
    then if (z <? 0)%Z then Raise ValueError else Ok tt
    else Raise OverflowError
  end.

(** ** The built-in [float] applied to text *)

Definition is_digit (c : N) : bool := (48 <=? c) && (c <=? 57).

(** Zero digits of the decimal-digit blocks of the Unicode database
    (version 14, as shipped with CPython 3.11); each block holds the ten
    digits in order. *)
Definition decimal_zeros : list N :=
  [0x30; 0x660; 0x6F0; 0x7C0; 0x966; 0x9E6; 0xA66; 0xAE6; 0xB66; 0xBE6;
   0xC66; 0xCE6; 0xD66; 0xDE6; 0xE50; 0xED0; 0xF20; 0x1040; 0x1090;
   0x17E0; 0x1810; 0x1946; 0x19D0; 0x1A80; 0x1A90; 0x1B50; 0x1BB0;
   0x1C40; 0x1C50; 0xA620; 0xA8D0; 0xA900; 0xA9D0; 0xA9F0; 0xAA50;
   0xABF0; 0xFF10; 0x104A0; 0x10D30; 0x11066; 0x110F0; 0x11136; 0x111D0;
   0x112F0; 0x11450; 0x114D0; 0x11650; 0x116C0; 0x11730; 0x118E0;
   0x11950; 0x11C50; 0x11D50; 0x11DA0; 0x16A60; 0x16AC0; 0x16B50;
   0x1D7CE; 0x1D7D8; 0x1D7E2; 0x1D7EC; 0x1D7F6; 0x1E140; 0x1E2F0;
   0x1E950; 0x1FBF0].

(** [Py_UNICODE_TODECIMAL] *)
Definition Py_UNICODE_TODECIMAL (c : N) : option N :=
  match find (fun z => (z <=? c) && (c <? z + 10)) decimal_zeros with
  | Some z => Some (c - z)
  | None => None
  end.

(** Non-ASCII text is first mapped to ASCII: white space becomes a blank,
    decimal digits of any script become ['0'..'9'], and the text is cut
    after a ['?'] at the first other code point. *)
Fixpoint transform_decimal_and_space (s : pystr) : pystr :=
  match s with
  | [] => []
  | c :: r =>
    if c <? 127 then c :: transform_decimal_and_space r
    else if Py_UNICODE_ISSPACE c then 32 :: transform_decimal_and_space r
    else match Py_UNICODE_TODECIMAL c with
         | Some d => (48 + d) :: transform_decimal_and_space r
         | None => [63]
         end
  end.

Definition to_ascii (s : pystr) : pystr :=
  if forallb (fun c => c <? 128) s then s else transform_decimal_and_space s.

(** Underscores may only stand between two digits; they are dropped. *)
Fixpoint drop_underscores (prev : N) (s : pystr) : option pystr :=
  match s with
  | [] => if prev =? 95 then None else Some []
  | c :: r =>
    if c =? 95 then
      if is_digit prev then drop_underscores c r else None
    else if (prev =? 95) && negb (is_digit c) then None
    else option_map (cons c) (drop_underscores c r)
  end.

(** [Py_ISSPACE]: ASCII white space. *)
Definition Py_ISSPACE (c : N) : bool :=
  ((9 <=? c) && (c <=? 13)) || (c =? 32).

Fixpoint span {A} (p : A -> bool) (l : list A) : list A * list A :=
  match l with
  | [] => ([], [])
  | x :: r =>
    if p x then let '(a, b) := span p r in (x :: a, b) else ([], l)
  end.

(** Value of a digit string, most significant digit first. *)
Definition digits_value (ds : pystr) : N :=
  fold_left (fun acc c => 10 * acc + (c - 48)) ds 0.

Definition parse_sign (s : pystr) : bool * pystr :=
  match s with
  | 45 :: r => (true, r)
  | 43 :: r => (false, r)
  | _ => (false, s)
  end.

(** A decimal numeral read from text: sign, digits and power of ten. *)
Record decimal : Type := { d_neg : bool; d_mant : N; d_exp : Z }.

(** The exponent part [e[+-]digits]; when it is malformed nothing of it is
    consumed. *)
Definition parse_exponent (s : pystr) : Z * pystr :=
  match s with
  | c :: r =>
    if (c =? 101) || (c =? 69) then
      let '(neg, r1) := parse_sign r in
      let '(ds, r2) := span is_digit r1 in
      match ds with
      | [] => (0%Z, s)
      | _ :: _ =>
        let e := Z.of_N (digits_value ds) in
        ((if neg then - e else e)%Z, r2)
      end
    else (0%Z, s)
  | [] => (0%Z, s)
  end.

(** [digits [. digits] [exponent]] or [. digits [exponent]] after the
    sign; [None] when there is no digit at all. *)
Definition parse_decimal (neg : bool) (s : pystr) : option (decimal * pystr) :=
  let '(ip, r1) := span is_digit s in
  let '(fp, r2) :=
    match r1 with
    | 46 :: r => span is_digit r
    | _ => ([], r1)
    end in
  match ip ++ fp with
  | [] => None
  | _ :: _ =>
    let '(e, r3) := parse_exponent r2 in
    Some ({| d_neg := neg;
             d_mant := digits_value (ip ++ fp);
             d_exp := (e - Z.of_nat (List.length fp))%Z |}, r3)
  end.

Definition lower (c : N) : N :=
  if (65 <=? c) && (c <=? 90) then c + 32 else c.

(** Case-insensitive match of an ASCII lower-case word at the head. *)
Fixpoint match_word (w s : pystr) : option pystr :=
  match w, s with
  | [], _ => Some s
  | _ :: _, [] => None
  | a :: w', b :: s' => if lower b =? a then match_word w' s' else None
  end.

(** [inf], [infinity] or [nan] after the sign. *)
Definition parse_inf_or_nan (neg : bool) (s : pystr) : option (float * pystr) :=
  match match_word (u "inf") s with
  | Some r =>
    let r' := match match_word (u "inity") r with
              | Some r'' => r''
              | None => r
              end in
    Some (if neg then neg_infinity else infinity, r')
  | None =>
    match match_word (u "nan") s with
    | Some r => Some (nan, r)
    | None => None
    end
  end.

(** Correctly rounded value of a decimal numeral. *)
Definition decimal_to_float (d : decimal) : float :=
  match d_mant d with
  | N0 => if d_neg d then neg_zero else zero
  | Npos m =>
    SF2Prim
      (match d_exp d with
       | Z0 => round_ratio (d_neg d) m 1
       | Zpos e => round_ratio (d_neg d) (m * 10 ^ e) 1
       | Zneg e => round_ratio (d_neg d) m (10 ^ e)
       end)
  end.

(** Leading white space is skipped; trailing white space is skipped as long
    as one character remains. *)
Fixpoint rstrip_keep_one (rs : pystr) : pystr :=
  match rs with
  | c :: ((_ :: _) as r) => if Py_ISSPACE c then rstrip_keep_one r else rs
  | _ => rs
  end.

Definition float_from_string_inner (s : pystr) : result float :=
  match dropwhile Py_ISSPACE s with
  | [] => Raise ValueError
  | (_ :: _) as s1 =>
    let s2 := rev (rstrip_keep_one (rev s1)) in
    let '(neg, s3) := parse_sign s2 in
    match parse_decimal neg s3 with
    | Some (d, []) => Ok (decimal_to_float d)
    | Some (_, _ :: _) => Raise ValueError
    | None =>
      match parse_inf_or_nan neg s3 with
      | Some (f, []) => Ok f
      | _ => Raise ValueError
      end
    end
  end.

(** [float(s)] for a [str] *)
Definition float_of_str (s : pystr) : result float :=
  match drop_underscores 0 (to_ascii s) with
  | None => Raise ValueError
  | Some s' => float_from_string_inner s'
  end.

(** [str(z)] for an [int], as an f-string renders it. *)
Definition str_of_int (z : Z) : string := NilZero.string_of_int (Z.to_int z).

End Py.

(* ================================================================== *)
(** * The script *)
(* ================================================================== *)

Module Amedas.
Import Py.

Declare Scope py_scope.
Delimit Scope py_scope with py.
Notation "x <- c ;; k" := (bind c (fun x => k))
  (at level 61, c at next level, right associativity) : py_scope.

(** ** Constants *)

Definition REQUEST_INTERVAL : Z := 1.
Definition MISSING_VALUE : pynum := PInt (-9999).
Definition MAX_RETRIES : Z := 3.
Definition BACKOFF_FACTOR : float := 0.5%float.

Definition WIND_DIRECTION : dict pynum :=
  [ (u "北", PInt 0); (u "北北東", PFloat 22.5); (u "北東", PInt 45);
    (u "東北東", PFloat 67.5);
    (u "東", PInt 90); (u "東南東", PFloat 112.5); (u "南東", PInt 135);
    (u "南南東", PFloat 157.5);
    (u "南", PInt 180); (u "南南西", PFloat 202.5); (u "南西", PInt 225);
    (u "西南西", PFloat 247.5);
    (u "西", PInt 270); (u "西北西", PFloat 292.5); (u "北西", PInt 315);
    (u "北北西", PFloat 337.5);
    (u "静穏", PInt 0) ].

(** ** Value converters *)

Definition handles_KeyError_AttributeError (e : exn) : bool :=
  match e with
  | KeyError | AttributeError => true
  | _ => false
  end.

Definition handles_ValueError_TypeError (e : exn) : bool :=
  match e with
  | ValueError | TypeError => true
  | _ => false
  end.

Definition str2windir (wind_str : option pystr) : result pynum :=
  try_except
    (match wind_str with
     | None => Ok MISSING_VALUE
     | Some s =>
       if str_in s [u "#"; u "×"] then Ok MISSING_VALUE
       else
         let s := strip (replace (u ")") empty_str s) in
         dict_getitem WIND_DIRECTION s
     end)
    handles_KeyError_AttributeError
    (fun _ => Ok MISSING_VALUE).

Definition str2float (weather_data : option pystr) : result pynum :=
  try_except
    (match weather_data with
     | None => Ok (PFloat 0)
     | Some s =>
       let s := strip (replace (u ")") empty_str s) in
       if pystr_eqb s (u "--") then Ok (PFloat 0)
       else (f <- float_of_str s ;; Ok (PFloat f))%py
     end)
    handles_ValueError_TypeError
    (fun _ => Ok MISSING_VALUE).

Definition mj2w (mj_value : pynum) : result pynum :=
  if ge_zero mj_value
  then (p <- mul_int mj_value (10 ^ 6) ;; div_int p 3600)%py
  else Ok (PFloat 0).

(** ** Row extraction *)

Record date : Type := { year : Z; month : Z; day : Z }.

(** A cell is represented by its [.string]: its text, or [None] when the
    cell has no single text child.  A row is the list of its [td] cells
    and a table the list of its [tr] rows, as [find_all] returns them. *)
Definition td : Type := option pystr.
Definition tr : Type := list td.
Definition table : Type := list tr.

(** The values a record holds. *)
Inductive pyobj : Type :=
| ODate (d : date)
| OStr (s : pystr)
| ONone
| ONum (n : pynum).

Definition obj_of_string (c : td) : pyobj :=
  match c with
  | Some s => OStr s
  | None => ONone
  end.

Definition data_row (d : date) (tds : tr) : result (list pyobj) :=
  (c0 <- list_getitem tds 0 ;;
   c1 <- list_getitem tds 1 ;; v1 <- str2float c1 ;;
   c2 <- list_getitem tds 2 ;; v2 <- str2float c2 ;;
   c3 <- list_getitem tds 3 ;; v3 <- str2float c3 ;;
   c4 <- list_getitem tds 4 ;; v4 <- str2float c4 ;;
   c5 <- list_getitem tds 5 ;; v5 <- str2float c5 ;;
   c6 <- list_getitem tds 6 ;; v6 <- str2float c6 ;;
   c7 <- list_getitem tds 7 ;; v7 <- str2float c7 ;;
   c8 <- list_getitem tds 8 ;; v8 <- str2float c8 ;;
   c9 <- list_getitem tds 9 ;; v9 <- str2windir c9 ;;
   c10 <- list_getitem tds 10 ;; v10 <- str2float c10 ;;
   c11 <- list_getitem tds 11 ;; x11 <- str2float c11 ;; v11 <- mj2w x11 ;;
   c12 <- list_getitem tds 12 ;; v12 <- str2float c12 ;;
   c13 <- list_getitem tds 13 ;; v13 <- str2float c13 ;;
   Ok [ ODate d; obj_of_string c0;
        ONum v1; ONum v2; ONum v3; ONum v4; ONum v5; ONum v6; ONum v7;
        ONum v8; ONum v9; ONum v10; ONum v11; ONum v12; ONum v13 ])%py.

(** The loop over the rows; [acc] is [data_list_per_hour]. *)
Fixpoint rows_loop (d : date) (trs : list tr) (acc : list (list pyobj))
  : result (list (list pyobj)) :=
  match trs with
  | [] => Ok acc
  | tds :: rest =>
    if (List.length tds <? 14)%nat then rows_loop d rest acc
    else (row <- data_row d tds ;; rows_loop d rest (acc ++ [row]))%py
  end.

(** The row extractor: the part of [scraping] after the table is found. *)
Definition extract_rows (d : date) (t : table) : result (list (list pyobj)) :=
  rows_loop d (skipn 2 t) [].

(** ** Fetching and the day orchestrator *)

(** What the script prints; the wording is left out, the interpolated values
    are kept. *)
Inductive message : Type :=
| MsgRetry (reason : string) (attempt max_retries : Z)
| MsgStatus (code : Z)
| MsgIncomplete
| MsgURLError (reason : string)
| MsgError (e : exn)
| MsgRerun
| MsgNoTable (d : date).

(** Observable effects, in program order. *)
Inductive event : Type :=
| Request (url : string)
| Print (m : message)
| Sleep (seconds : pynum).

(** The state threaded through effectful code: how many times [urlopen] has
    been called and the effects so far (latest first); [Request] marks a
    call of [urlopen]. *)
Record world : Type := { net_calls : nat; trace : list event }.

Definition M (A : Type) : Type := world -> result A * world.

Definition retM {A} (a : A) : M A := fun w => (Ok a, w).
Definition raiseM {A} (e : exn) : M A := fun w => (Raise e, w).
Definition liftM {A} (c : result A) : M A := fun w => (c, w).

Definition bindM {A B} (c : M A) (k : A -> M B) : M B :=
  fun w =>
    match c w with
    | (Ok a, w') => k a w'
    | (Raise e, w') => (Raise e, w')
    end.

Declare Scope io_scope.
Delimit Scope io_scope with io.
Notation "x <- c ;; k" := (bindM c (fun x => k))
  (at level 61, c at next level, right associativity) : io_scope.
Notation "c ;; k" := (bindM c (fun _ => k))
  (at level 61, right associativity) : io_scope.

(** [try: c except C1: h1 except C2: h2 ...]: the first clause whose class
    the exception is an instance of handles it. *)
Fixpoint select_handler {A} (hs : list ((exn -> bool) * (exn -> M A)))
         (e : exn) : M A :=
  match hs with
  | [] => raiseM e
  | (cls, h) :: r => if cls e then h e else select_handler r e
  end.

Definition tryM {A} (c : M A) (hs : list ((exn -> bool) * (exn -> M A)))
  : M A :=
  fun w =>
    match c w with
    | (Ok a, w') => (Ok a, w')
    | (Raise e, w') => select_handler hs e w'
    end.

Definition print (m : message) : M unit :=
  fun w => (Ok tt, {| net_calls := net_calls w;
                      trace := Print m :: trace w |}).

(** [time.sleep(seconds)] *)
Definition sleep (seconds : pynum) : M unit :=
  fun w =>
    match time_sleep_check seconds with
    | Ok _ => (Ok tt, {| net_calls := net_calls w;
                         trace := Sleep seconds :: trace w |})
    | Raise e => (Raise e, w)
    end.

(** [sys.exit(code)] *)
Definition sys_exit {A} (code : Z) : M A := raiseM (SystemExit code).

Definition reason_of (e : exn) : string :=
  match e with
  | URLError r => r
  | _ => EmptyString
  end.

(** A [for] loop whose body may [return]: [Some r] leaves the function with
    [r], [None] goes on with the next index; [after] is the code that follows
    the loop. *)
Fixpoint for_returning {I R} (body : I -> M (option R)) (idx : list I)
         (after : M R) : M R :=
  match idx with
  | [] => after
  | i :: rest =>
    (o <- body i ;;
     match o with
     | Some r => retM r
     | None => for_returning body rest after
     end)%io
  end.

Section Collaborators.

(** The raw markup of a page. *)
Variable html : Type.

(** An HTTP response: what [read()] gives and what [getcode()] gives. *)
Record response : Type := { read : result html; getcode : Z }.

(** What the script asks of a parsed document: whether [soup.html],
    [soup.head] and [soup.body] exist, and [soup.find(name, {"class": c})]. *)
Record soup : Type := {
  soup_html : bool;
  soup_head : bool;
  soup_body : bool;
  soup_find : string -> string -> option table
}.

(** [urllib.request.urlopen]: the outcome of its [n]-th call. *)
Variable urlopen_outcome : nat -> string -> result response.

(** [BeautifulSoup(markup, "html.parser")] *)
Variable BeautifulSoup : html -> result soup.

Definition urlopen (url : string) : M response :=
  fun w => (urlopen_outcome (net_calls w) url,
            {| net_calls := S (net_calls w);
               trace := Request url :: trace w |}).

Definition exhausted_message (max_retries : Z) : string :=
  str_of_int max_retries ++ " 回のリトライ後もURLの取得に失敗しました。".

(** One iteration of the retry loop. *)
Definition attempt (url : string) (max_retries : Z) (backoff_factor : float)
           (i : Z) : M (option response) :=
  tryM
    (response <- urlopen url ;;
     retM (Some response))%io
    [ (is_URLError, fun e =>
        (print (MsgRetry (reason_of e) (i + 1) max_retries) ;;
         (if (i <? max_retries - 1)%Z
          then (d <- liftM (mul_int (PFloat backoff_factor) (2 ^ i)) ;;
                sleep d)
          else retM tt) ;;
         retM None)%io) ].

Definition fetch_url_with_retry (url : string) (max_retries : Z)
           (backoff_factor : float) : M response :=
  for_returning (attempt url max_retries backoff_factor)
                (range max_retries)
                (raiseM (Exception_ (exhausted_message max_retries))).

(** The [try] block of [scraping]; it leaves [html] for the code after. *)
Definition fetch_and_validate (url : string) : M html :=
  tryM
    (response <- fetch_url_with_retry url MAX_RETRIES BACKOFF_FACTOR ;;
     page <- liftM (read response) ;;
     (if negb (getcode response =? 200)%Z
      then (print (MsgStatus (getcode response)) ;; sys_exit 1)
      else retM tt) ;;
     doc <- liftM (BeautifulSoup page) ;;
     (if negb (soup_html doc) || negb (soup_head doc) || negb (soup_body doc)
      then (print MsgIncomplete ;; sys_exit 1)
      else retM tt) ;;
     retM page)%io
    [ (is_URLError, fun e =>
        (print (MsgURLError (reason_of e)) ;; sys_exit 1)%io);
      (is_Exception, fun e =>
        (print (MsgError e) ;; print MsgRerun ;; sys_exit 1)%io) ].

Definition scraping (url : string) (d : date) : M (list (list pyobj)) :=
  (page <- fetch_and_validate url ;;
   doc <- liftM (BeautifulSoup page) ;;
   match soup_find doc "table" "data2_s" with
   | None => (print (MsgNoTable d) ;; sys_exit 1)
   | Some t => liftM (extract_rows d t)
   end)%io.

End Collaborators.

(** ** Calendar dates *)

(** [datetime.date]: the proleptic Gregorian calendar, years 1 to 9999. *)
Definition is_leap (y : Z) : bool :=
  ((y mod 4 =? 0) && (negb (y mod 100 =? 0) || (y mod 400 =? 0)))%Z.

Definition days_in_month (y m : Z) : Z :=
  match m with
  | 2 => if is_leap y then 29 else 28
  | 4 | 6 | 9 | 11 => 30
  | _ => 31
  end%Z.

(** The dates a [date] object can hold. *)
Definition valid_date (d : date) : bool :=
  ((1 <=? year d) && (year d <=? 9999)
   && (1 <=? month d) && (month d <=? 12)
   && (1 <=? day d) && (day d <=? days_in_month (year d) (month d)))%Z.

Definition days_before_year (y : Z) : Z :=
  ((y - 1) * 365 + (y - 1) / 4 - (y - 1) / 100 + (y - 1) / 400)%Z.

Definition days_before_month (y m : Z) : Z :=
  fold_right Z.add 0%Z (map (days_in_month y) (map Z.of_nat (seq 1 (Z.to_nat (m - 1))))).

(** [d.toordinal()]: 1 for 0001-01-01. *)
Definition toordinal (d : date) : Z :=
  (days_before_year (year d) + days_before_month (year d) (month d) + day d)%Z.

(** [(b - a).days] *)
Definition days_between (a b : date) : Z := (toordinal b - toordinal a)%Z.

(** [d + datetime.timedelta(days=1)]: [OverflowError] past 9999-12-31. *)
Definition add_one_day (d : date) : result date :=
  if (day d <? days_in_month (year d) (month d))%Z
  then Ok {| year := year d; month := month d; day := day d + 1 |}
  else if (month d <? 12)%Z
  then Ok {| year := year d; month := month d + 1; day := 1 |}
  else if (year d <? 9999)%Z
  then Ok {| year := year d + 1; month := 1; day := 1 |}
  else Raise OverflowError.

(** [a > b] on dates. *)
Definition date_gtb (a b : date) : bool :=
  ((year b <? year a)
   || ((year a =? year b)
       && ((month b <? month a)
           || ((month a =? month b) && (day b <? day a)))))%Z.

(** ** The range driver *)

(** What the driver and the entry point print. *)
Inductive notice : Type :=
| NoticeCompleted (output_file : string)
| NoticeBadDate
| NoticeStartAfterEnd
| NoticeParameters (prec_no block_no : Z) (start_date end_date : date)
                   (interval : pynum).

(** The state of a run: the network and console state of the fetcher, the
    rows written to the output file ([None] until the file is opened), and
    the notices printed, latest first. *)
Record run : Type := {
  io : world;
  csv : option (list (list pyobj));
  notices : list notice
}.

Definition D (A : Type) : Type := run -> result A * run.

Definition retD {A} (a : A) : D A := fun s => (Ok a, s).
Definition raiseD {A} (e : exn) : D A := fun s => (Raise e, s).

Definition bindD {A B} (c : D A) (k : A -> D B) : D B :=
  fun s =>
    match c s with
    | (Ok a, s') => k a s'
    | (Raise e, s') => (Raise e, s')
    end.

Declare Scope run_scope.
Delimit Scope run_scope with run.
Notation "x <- c ;; k" := (bindD c (fun x => k))
  (at level 61, c at next level, right associativity) : run_scope.
Notation "c ;; k" := (bindD c (fun _ => k))
  (at level 61, right associativity) : run_scope.

(** Code of the fetcher run inside the driver. *)
Definition liftD {A} (c : M A) : D A :=
  fun s =>
    let '(r, w) := c (io s) in
    (r, {| io := w; csv := csv s; notices := notices s |}).

Definition notify (n : notice) : D unit :=
  fun s => (Ok tt, {| io := io s; csv := csv s;
                      notices := n :: notices s |}).

(** [open(output_path, 'w', ...)]: the file is created or emptied. *)
Definition open_output : D unit :=
  fun s => (Ok tt, {| io := io s; csv := Some []; notices := notices s |}).

(** [writer.writerow(row)] *)
Definition writerow (row : list pyobj) : D unit :=
  fun s => (Ok tt, {| io := io s;
                      csv := Some (match csv s with
                                   | Some rows => rows ++ [row]
                                   | None => [row]
                                   end);
                      notices := notices s |}).

(** [for row in rows: writer.writerow(row)] *)
Fixpoint writerows (rows : list (list pyobj)) : D unit :=
  match rows with
  | [] => retD tt
  | row :: rest => (writerow row ;; writerows rest)%run
  end.

Definition fields : list pyobj :=
  map (fun s => OStr (u s))
      [ "年月日"; "時間"; "気圧現地(hPa)"; "気圧海面(hPa)";
        "降水量(mm)"; "気温(℃)"; "露点温度(℃)"; "蒸気圧(hPa)"; "湿度(%)";
        "風速(m/s)"; "風向(deg)"; "日照時間(h)"; "全天日射量(W/m2)";
        "降雪(cm)"; "積雪(cm)" ]%string.

Definition output_file (prec_no block_no : Z) (start_date end_date : date)
  : string :=
  (str_of_int prec_no ++ "_" ++ str_of_int block_no ++ "_"
   ++ str_of_int (year start_date) ++ "_" ++ str_of_int (year end_date)
   ++ "_weather.csv")%string.

Definition day_url (prec_no block_no : Z) (current_date : date) : string :=
  ("http://www.data.jma.go.jp/obd/stats/etrn/view/hourly_s1.php?"
   ++ "prec_no=" ++ str_of_int prec_no ++ "&block_no=" ++ str_of_int block_no
   ++ "&year=" ++ str_of_int (year current_date)
   ++ "&month=" ++ str_of_int (month current_date)
   ++ "&day=" ++ str_of_int (day current_date) ++ "&view=")%string.

(** The command line as [parse_arguments] returns it. *)
Record arguments : Type := {
  arg_prec_no : Z;
  arg_block_no : Z;
  arg_start : string;
  arg_end : string;
  arg_interval : pynum
}.

Section Driver.

Variable html : Type.
Variable urlopen_outcome : nat -> string -> result (response html).
Variable BeautifulSoup : html -> result soup.

(** [datetime.datetime.strptime(s, "%Y-%m-%d").date()] *)
Variable strptime_date : string -> result date.

(** The loop over the days; [n] is the number of iterations left and
    [current_date] the loop's variable of that name. *)
Fixpoint days_loop (prec_no block_no : Z) (request_interval : pynum)
         (n : nat) (current_date : date) : D unit :=
  match n with
  | O => retD tt
  | S n' =>
    (let url := day_url prec_no block_no current_date in
     data_per_day <-
       liftD (scraping html urlopen_outcome BeautifulSoup url current_date) ;;
     writerows data_per_day ;;
     liftD (sleep request_interval) ;;
     next <- liftD (liftM (add_one_day current_date)) ;;
     days_loop prec_no block_no request_interval n' next)%run
  end.

(** Creating the directory, the progress bar and the elapsed time are
    left out; they do not act on the file or on the network. *)
Definition create_csv (prec_no block_no : Z) (start_date end_date : date)
           (request_interval : pynum) : D unit :=
  (let total_days := (days_between start_date end_date + 1)%Z in
   open_output ;;
   writerow fields ;;
   days_loop prec_no block_no request_interval
             (Z.to_nat total_days) start_date ;;
   notify (NoticeCompleted
             (output_file prec_no block_no start_date end_date)))%run.

Definition handles_ValueError (e : exn) : bool :=
  match e with
  | ValueError => true
  | _ => false
  end.

(** The script's entry point, after [parse_arguments]. *)
Definition main (args : arguments) : D unit :=
  fun s =>
    match (match strptime_date (arg_start args) with
           | Ok start_date =>
             match strptime_date (arg_end args) with
             | Ok end_date => Ok (start_date, end_date)
             | Raise e => Raise e
             end
           | Raise e => Raise e
           end) with
    | Raise e =>
      if handles_ValueError e
      then (notify NoticeBadDate ;; raiseD (SystemExit 1))%run s
      else (Raise e, s)
    | Ok (start_date, end_date) =>
      (if date_gtb start_date end_date
       then (notify NoticeStartAfterEnd ;; raiseD (SystemExit 1))
       else
         (notify (NoticeParameters (arg_prec_no args) (arg_block_no args)
                                   start_date end_date (arg_interval args)) ;;
          create_csv (arg_prec_no args) (arg_block_no args)
                     start_date end_date (arg_interval args)))%run s
    end.

End Driver.


End Amedas.

(* ================================================================== *)
(** * Vocabulary of the specification *)
(* ================================================================== *)

Module Spec.
Import Py Amedas.

(** The text both converters look at: every [')'] deleted, then white
    space stripped at both ends. *)
Definition cleaned (s : pystr) : pystr :=
  strip (replace (u ")") empty_str s).

(** Text made of white space and [')'] only, as may surround a reading. *)
Definition padding (l : pystr) : bool :=
  forallb (fun c => Py_UNICODE_ISSPACE c || (c =? 41)%N) l.

(** The sixteen compass points, clockwise from north. *)
Definition compass_points : list pystr :=
  [ u "北"; u "北北東"; u "北東"; u "東北東";
    u "東"; u "東南東"; u "南東"; u "南南東";
    u "南"; u "南南西"; u "南西"; u "西南西";
    u "西"; u "西北西"; u "北西"; u "北北西" ].

(** The calm token. *)
Definition calm : pystr := u "静穏".

(** The numeric value of a result as a [float] (Python's [float(v)]). *)
Definition float_of_num (v : pynum) : result float :=
  match v with
  | PInt z => int_to_float z
  | PFloat f => Ok f
  end.

(** The table lookup of [str2windir] together with its [KeyError]
    handler. *)
Definition lookup_or_missing (t : pystr) : result pynum :=
  match dict_getitem WIND_DIRECTION t with
  | Ok v => Ok v
  | Raise _ => Ok MISSING_VALUE
  end.

(** [n] as a [float], for a small natural number. *)
Definition nat_to_float (n : nat) : float :=
  SF2Prim (binary_normalize prec emax (Z.of_nat n) 0 false).

(** The [i]-th multiple of 22.5 degrees. *)
Definition compass_angle (i : nat) : float := (22.5 * nat_to_float i)%float.

(** [2 ** i] as a [float]. *)
Definition pow2_float (i : Z) : float :=
  SF2Prim (binary_normalize prec emax (2 ^ i) 0 false).

(** The delay after failed attempt [i]: [backoff_factor * 2 ** i]. *)
Definition backoff_delay (backoff_factor : float) (i : Z) : pynum :=
  PFloat (backoff_factor * pow2_float i)%float.

(** What a failed attempt reported. *)
Definition failure_reason {R} (o : result R) : string :=
  match o with
  | Raise e => reason_of e
  | Ok _ => EmptyString
  end.

(** The effects of attempt [i] when it fails with a [URLError]: the request,
    the log line, and the delay unless [i] is the last index of the
    budget. *)
Definition failed_attempt_events (url : string) (max_retries : Z)
           (backoff_factor : float) (i : nat) (reason : string)
  : list event :=
  [ Request url; Print (MsgRetry reason (Z.of_nat i + 1) max_retries) ]
  ++ (if (Z.of_nat i <? max_retries - 1)%Z
      then [ Sleep (backoff_delay backoff_factor (Z.of_nat i)) ]
      else []).

(** Sample collaborators.  Pages are left abstract ([unit]). *)
Definition ok_response : response unit := {| read := Ok tt; getcode := 200 |}.

(** A document with all its parts and an empty data table. *)
Definition complete_soup : soup :=
  {| soup_html := true; soup_head := true; soup_body := true;
     soup_find := fun _ _ => Some [] |}.

Definition parse_complete (page : unit) : result soup := Ok complete_soup.

(** A server that cannot be reached. *)
Definition unreachable (n : nat) (url : string) : result (response unit) :=
  Raise (URLError "unreachable").

(** Two failures with [URLError], then a response. *)
Definition flaky (n : nat) (url : string) : result (response unit) :=
  if (n <? 2)%nat then Raise (URLError "timed out") else Ok ok_response.

(** A first call that fails with an exception that is not a [URLError]
    ([urlopen] raises [ValueError] on an unknown URL type); later calls
    would succeed. *)
Definition rejected_once (n : nat) (url : string) : result (response unit) :=
  match n with
  | O => Raise ValueError
  | S _ => Ok ok_response
  end.

Definition initial_world : world := {| net_calls := 0; trace := [] |}.

(** The request for Tokyo on 2000-01-01. *)
Definition sample_url : string :=
  "http://www.data.jma.go.jp/obd/stats/etrn/view/hourly_s1.php?prec_no=44&block_no=47662&year=2000&month=1&day=1&view=".

(** The world after [flaky] has been fetched from with a budget of 3 and a
    backoff factor of 0.5. *)
Definition flaky_final_world : world :=
  {| net_calls := 3;
     trace := [ Request sample_url;
                Sleep (PFloat 1); Print (MsgRetry "timed out" 2 3);
                Request sample_url;
                Sleep (PFloat 0.5); Print (MsgRetry "timed out" 1 3);
                Request sample_url ] |}.

(** A well-formed row: hour 1, 1013.2 hPa, wind from the north-east,
    1.5 MJ/m2 of irradiance, no snow columns. *)
Definition sample_date : date := {| year := 2000; month := 1; day := 1 |}.
Definition sample_row : tr :=
  [ Some (u "1"); Some (u "1013.2"); Some (u "1016.0"); Some (u "--");
    Some (u "5.4"); Some (u "-1.2"); Some (u "5.6"); Some (u "62");
    Some (u "2.1 )"); Some (u "北東"); Some (u "0.8"); Some (u "1.5");
    None; Some (u "×") ].

(** A float that is not below zero: a zero of either sign, a positive
    number, plus infinity, or NaN. *)
Definition not_negative (f : spec_float) : bool :=
  match f with
  | S754_nan | S754_zero _ => true
  | S754_infinity s | S754_finite s _ _ => negb s
  end.

(** The keys of the compass table. *)
Definition compass_keys : list pystr := map fst WIND_DIRECTION.

(** The date a record starts with. *)
Definition row_date (rec : list pyobj) : option date :=
  match rec with
  | ODate d :: _ => Some d
  | _ => None
  end.

(** A complete record of day [d]. *)
Definition day_record (d : date) (rec : list pyobj) : Prop :=
  List.length rec = 15%nat /\ row_date rec = Some d.

(** The value of [current_date] after [i] rounds of the driver's loop. *)
Fixpoint date_after (i : nat) (d : date) : result date :=
  match i with
  | O => Ok d
  | S i' => (next <- add_one_day d ;; date_after i' next)%py
  end.

(** A command line for Tokyo on 2000-01-01 and a date parser that knows
    this one date. *)
Definition sample_arguments : arguments :=
  {| arg_prec_no := 44; arg_block_no := 47662;
     arg_start := "2000-01-01"; arg_end := "2000-01-01";
     arg_interval := PFloat 1 |}.

Definition sample_strptime (s : string) : result date :=
  if String.eqb s "2000-01-01" then Ok sample_date else Raise ValueError.

Definition initial_run : run :=
  {| io := initial_world; csv := None; notices := [] |}.

(** A parser that finds, in every page, a table of two header rows, a
    short row and the sample row. *)
Definition parse_sample (page : unit) : result soup :=
  Ok {| soup_html := true; soup_head := true; soup_body := true;
        soup_find := fun _ _ =>
          Some [ []; []; [Some (u "24")]; sample_row ] |}.

Definition january_31 : date := {| year := 2000; month := 1; day := 31 |}.
Definition february_1 : date := {| year := 2000; month := 2; day := 1 |}.

(** The last day a [date] can hold. *)
Definition max_date : date := {| year := 9999; month := 12; day := 31 |}.

Definition days_in_year (y : Z) : Z := if is_leap y then 366%Z else 365%Z.

(** The length of month [m] in a leap or a common year. *)
Definition month_length (leap : bool) (m : Z) : Z :=
  match m with
  | 2 => if leap then 29 else 28
  | 4 | 6 | 9 | 11 => 30
  | _ => 31
  end%Z.

Definition short_row (tds : tr) : bool := (List.length tds <? 14)%nat.
Definition full_row (tds : tr) : bool := negb (short_row tds).

End Spec.

(* ================================================================== *)
(** * Properties of the run-time model *)
(* ================================================================== *)

Module PyFacts.
Import Py.

Local Open Scope N_scope.

Section Dropwhile.

Context {A : Type} (p : A -> bool).

Lemma dropwhile_split (l : list A) :
  exists pre, l = pre ++ dropwhile p l /\ forallb p pre = true.
Proof.
  induction l as [|x r IH]; simpl.
  - exists []; auto.
  - destruct (p x) eqn:Hx.
    + destruct IH as [pre [Heq Hall]].
      exists (x :: pre); simpl; rewrite Hx, <- Heq; auto.
    + exists []; auto.
Qed.

Lemma dropwhile_head (l : list A) x r :
  dropwhile p l = x :: r -> p x = false.
Proof.
  induction l as [|y l IH]; simpl; [discriminate|].
  destruct (p y) eqn:Hy; auto.
  intros H; injection H as -> _; exact Hy.
Qed.

Lemma dropwhile_fix (l : list A) :
  match l with [] => True | x :: _ => p x = false end ->
  dropwhile p l = l.
Proof.
  destruct l as [|x r]; simpl; auto.
  intros ->; reflexivity.
Qed.

Lemma dropwhile_idem (l : list A) :
  dropwhile p (dropwhile p l) = dropwhile p l.
Proof.
  apply dropwhile_fix.
  destruct (dropwhile p l) eqn:E; auto.
  eapply dropwhile_head; eauto.
Qed.

Lemma dropwhile_all (l : list A) :
  forallb p l = true -> dropwhile p l = [].
Proof.
  induction l as [|x r IH]; simpl; auto.
  destruct (p x); simpl; auto; discriminate.
Qed.

Lemma dropwhile_incl (l : list A) x : In x (dropwhile p l) -> In x l.
Proof.
  destruct (dropwhile_split l) as [pre [Heq _]].
  intros H; rewrite Heq; apply in_or_app; auto.
Qed.

End Dropwhile.

(** [rstrip] keeps a prefix of its argument. *)
Lemma rstrip_prefix (s : pystr) : exists suf, s = rstrip s ++ suf.
Proof.
  unfold rstrip.
  destruct (dropwhile_split Py_UNICODE_ISSPACE (rev s)) as [pre [Heq _]].
  exists (rev pre).
  rewrite <- rev_app_distr, <- Heq, rev_involutive; reflexivity.
Qed.

Lemma rstrip_idem (s : pystr) : rstrip (rstrip s) = rstrip s.
Proof.
  unfold rstrip; rewrite rev_involutive, dropwhile_idem; reflexivity.
Qed.

Lemma strip_incl (s : pystr) x : In x (strip s) -> In x s.
Proof.
  unfold strip, rstrip, lstrip; intros H.
  apply in_rev, dropwhile_incl, in_rev, dropwhile_incl in H; exact H.
Qed.

Lemma lstrip_strip (s : pystr) : lstrip (strip s) = strip s.
Proof.
  unfold strip, lstrip; apply dropwhile_fix.
  destruct (rstrip_prefix (dropwhile Py_UNICODE_ISSPACE s)) as [suf Heq].
  destruct (rstrip (dropwhile Py_UNICODE_ISSPACE s)) as [|x r] eqn:E; auto.
  simpl in Heq; eapply dropwhile_head; eauto.
Qed.

Lemma strip_idem (s : pystr) : strip (strip s) = strip s.
Proof.
  unfold strip at 1; rewrite lstrip_strip.
  unfold strip; apply rstrip_idem.
Qed.

Lemma strip_all_space (s : pystr) :
  forallb Py_UNICODE_ISSPACE s = true -> strip s = [].
Proof.
  intros H; unfold strip, lstrip; rewrite dropwhile_all; auto.
Qed.

Lemma dropwhile_app_all {A} (p : A -> bool) (l r : list A) :
  forallb p l = true -> dropwhile p (l ++ r) = dropwhile p r.
Proof.
  induction l as [|x l IH]; simpl; [reflexivity|].
  destruct (p x); simpl; [exact IH|discriminate].
Qed.

Lemma forallb_rev {A} (p : A -> bool) (l : list A) :
  forallb p l = true -> forallb p (rev l) = true.
Proof.
  rewrite !forallb_forall; intros H x Hx; apply H, in_rev; exact Hx.
Qed.

Lemma rstrip_app_space (s q : pystr) :
  forallb Py_UNICODE_ISSPACE q = true -> rstrip (s ++ q) = rstrip s.
Proof.
  intros H; unfold rstrip.
  rewrite rev_app_distr, dropwhile_app_all by (apply forallb_rev; exact H).
  reflexivity.
Qed.

(** White space around a text does not survive [strip]. *)
Lemma strip_padded (p s q : pystr) :
  forallb Py_UNICODE_ISSPACE p = true ->
  forallb Py_UNICODE_ISSPACE q = true ->
  strip (p ++ s ++ q) = strip s.
Proof.
  intros Hp Hq; unfold strip, lstrip.
  rewrite dropwhile_app_all by exact Hp.
  destruct (dropwhile_split Py_UNICODE_ISSPACE s) as [pre [Heq Hpre]].
  rewrite Heq at 1; rewrite <- app_assoc, dropwhile_app_all by exact Hpre.
  destruct (dropwhile Py_UNICODE_ISSPACE s) as [|c r] eqn:E.
  - cbn [app]; rewrite dropwhile_all by exact Hq; reflexivity.
  - pose proof (dropwhile_head _ _ _ _ E) as Hc.
    cbn [app dropwhile]; rewrite Hc.
    exact (rstrip_app_space (c :: r) q Hq).
Qed.

(** Replacing a single code point by nothing deletes every occurrence. *)
Lemma replace_char_filter (c : N) (s : pystr) :
  replace [c] empty_str s = filter (fun x => negb (c =? x)) s.
Proof.
  unfold replace, empty_str.
  induction s as [|x r IH]; simpl; auto.
  rewrite andb_true_r.
  destruct (c =? x); simpl; rewrite IH; reflexivity.
Qed.

Lemma filter_id {A} (p : A -> bool) (l : list A) :
  (forall x, In x l -> p x = true) -> filter p l = l.
Proof.
  induction l as [|x r IH]; simpl; intros H; auto.
  rewrite (H x) by auto; f_equal; auto.
Qed.

Lemma pystr_eqb_eq (a b : pystr) : pystr_eqb a b = true <-> a = b.
Proof.
  unfold pystr_eqb; destruct (list_eq_dec N.eq_dec a b); split;
    intros; auto; discriminate.
Qed.

End PyFacts.

(* ================================================================== *)
(** * The value converters *)
(* ================================================================== *)

Module Converters.
Import Py Amedas Spec PyFacts.

#[local] Set Warnings "-inexact-float".

(** ** Auxiliary facts *)

(** The only error [float] reports on text is [ValueError]. *)
Lemma float_of_str_error (s : pystr) (e : exn) :
  float_of_str s = Raise e -> e = ValueError.
Proof.
  unfold float_of_str.
  destruct (drop_underscores 0 (to_ascii s)) as [s'|]; [|congruence].
  unfold float_from_string_inner.
  destruct (dropwhile Py_ISSPACE s') as [|c r]; [congruence|].
  destruct (parse_sign _) as [neg s3].
  destruct (parse_decimal neg s3) as [[d [|? ?]]|]; try congruence.
  destruct (parse_inf_or_nan neg s3) as [[f [|? ?]]|]; congruence.
Qed.

Lemma str2float_unfold (s : pystr) :
  str2float (Some s) =
  if pystr_eqb (cleaned s) (u "--") then Ok (PFloat 0)
  else match float_of_str (cleaned s) with
       | Ok f => Ok (PFloat f)
       | Raise _ => Ok MISSING_VALUE
       end.
Proof.
  unfold str2float; fold (cleaned s).
  destruct (pystr_eqb (cleaned s) (u "--")); [reflexivity|].
  destruct (float_of_str (cleaned s)) as [f|e] eqn:E; [reflexivity|].
  apply float_of_str_error in E; subst e; reflexivity.
Qed.

(** [str2float] always returns, and returns a [float] or the sentinel. *)
Lemma str2float_total (c : option pystr) :
  exists v, str2float c = Ok v /\ (v = MISSING_VALUE \/ exists f, v = PFloat f).
Proof.
  destruct c as [s|].
  - rewrite str2float_unfold.
    destruct (pystr_eqb _ _); [eauto|].
    destruct (float_of_str _); eauto.
  - exists (PFloat 0); split; eauto.
Qed.

Lemma cleaned_filter (s : pystr) :
  cleaned s = strip (filter (fun x => negb (41 =? x)%N) s).
Proof.
  unfold cleaned; change (u ")") with [41%N].
  rewrite replace_char_filter; reflexivity.
Qed.

Lemma cleaned_idem (s : pystr) : cleaned (cleaned s) = cleaned s.
Proof.
  rewrite (cleaned_filter (cleaned s)), filter_id; [apply strip_idem|].
  intros x Hx; rewrite cleaned_filter in Hx.
  apply strip_incl, filter_In in Hx; tauto.
Qed.

Lemma cleaned_all_space (s : pystr) :
  forallb Py_UNICODE_ISSPACE s = true -> cleaned s = [].
Proof.
  intros H; rewrite cleaned_filter; apply strip_all_space.
  rewrite forallb_forall in *; intros x Hx.
  apply filter_In in Hx; apply H; tauto.
Qed.

Lemma float_neq_by (p : float -> bool) (a b : float) :
  p a <> p b -> a <> b.
Proof. intros H E; apply H; rewrite E; reflexivity. Qed.

Lemma ok_float_inj (a b : float) :
  @Ok pynum (PFloat a) = Ok (PFloat b) -> a = b.
Proof.
  intros H.
  exact (f_equal (fun r => match r with Ok (PFloat f) => f | _ => a end) H).
Qed.

(** ** C1 *)

Lemma padding_filtered (l : pystr) :
  padding l = true ->
  forallb Py_UNICODE_ISSPACE (filter (fun x => negb (41 =? x)%N) l) = true.
Proof.
  unfold padding; rewrite !forallb_forall; intros H x Hx.
  apply filter_In in Hx; destruct Hx as [Hin Hne].
  specialize (H x Hin); apply orb_true_iff in H.
  destruct H as [H|H]; [exact H|].
  rewrite N.eqb_sym, H in Hne; discriminate.
Qed.

(** Padding around a text does not reach the parser. *)
Lemma cleaned_padded (pre s suf : pystr) :
  padding pre = true -> padding suf = true ->
  cleaned (pre ++ s ++ suf) = cleaned s.
Proof.
  intros Hpre Hsuf; rewrite !cleaned_filter, !filter_app.
  apply strip_padded; apply padding_filtered; assumption.
Qed.

(** C1.  [str2float] never raises: on every optional text it returns a
    value, which is 0.0 for absent input, 0.0 when the text with every
    [')'] deleted and white space stripped is ["--"], the parsed number when
    that text parses as a float, and the sentinel -9999 otherwise.  White
    space and [')'] around a text change nothing: a dash token so padded
    gives 0.0 ([" -- "], ["-- )"]), ["12.3 )"] gives 12.3, and ["×"] gives
    -9999. *)
Theorem str2float_cases :
  (forall x : option pystr,
      exists v, str2float x = Ok v /\
        match x with
        | None => v = PFloat 0
        | Some s =>
          if pystr_eqb (cleaned s) (u "--") then v = PFloat 0
          else match float_of_str (cleaned s) with
               | Ok f => v = PFloat f
               | Raise _ => v = MISSING_VALUE
               end
        end)
  /\ (forall pre s suf : pystr,
         padding pre = true -> padding suf = true ->
         str2float (Some (pre ++ s ++ suf)) = str2float (Some s))
  /\ (forall pre suf : pystr,
         padding pre = true -> padding suf = true ->
         str2float (Some (pre ++ u "--" ++ suf)) = Ok (PFloat 0))
  /\ str2float None = Ok (PFloat 0)
  /\ str2float (Some (u "--")) = Ok (PFloat 0)
  /\ str2float (Some (u " -- ")) = Ok (PFloat 0)
  /\ str2float (Some (u "-- )")) = Ok (PFloat 0)
  /\ str2float (Some (u "　--　")) = Ok (PFloat 0)
  /\ str2float (Some (u "-")) = Ok (PInt (-9999))
  /\ str2float (Some (u "- -")) = Ok (PInt (-9999))
  /\ str2float (Some (u "12.3")) = Ok (PFloat 12.3)
  /\ str2float (Some (u "12.3 )")) = Ok (PFloat 12.3)
  /\ str2float (Some (u "×")) = Ok (PInt (-9999)).
Proof.
  split; [|split; [|split; [|repeat split; vm_compute; reflexivity]]].
  - intros [s|]; [|exists (PFloat 0); split; reflexivity].
    rewrite str2float_unfold.
    destruct (pystr_eqb (cleaned s) (u "--")); [eauto|].
    destruct (float_of_str (cleaned s)); eauto.
  - intros pre s suf Hpre Hsuf.
    rewrite !str2float_unfold, (cleaned_padded pre s suf Hpre Hsuf).
    reflexivity.
  - intros pre suf Hpre Hsuf.
    rewrite str2float_unfold, (cleaned_padded pre (u "--") suf Hpre Hsuf).
    reflexivity.
Qed.

Lemma str2float_cases_witness :
  padding (u " ") = true
  /\ padding (u " )") = true
  /\ str2float (Some (u " " ++ u "--" ++ u " )")) = Ok (PFloat 0).
Proof.
  split; [reflexivity|]. split; [reflexivity|].
  apply (proj1 (proj2 (proj2 str2float_cases)) (u " ") (u " )"));
    reflexivity.
Defined.

(** ** C5 *)

(** C5, as stated, fails: on the empty string [str2float] returns the
    sentinel, not 0.0. *)
Lemma str2float_empty_text_not_zero :
  str2float (Some empty_str) = Ok (PInt (-9999))
  /\ str2float (Some empty_str) <> Ok (PFloat 0).
Proof.
  split; [vm_compute; reflexivity|].
  vm_compute; discriminate.
Qed.

(** C5, amended.  On text that is empty or consists of white space only
    [str2float] returns the sentinel -9999; only absent input gives 0.0. *)
Theorem str2float_blank_text (s : pystr) :
  forallb Py_UNICODE_ISSPACE s = true ->
  str2float (Some s) = Ok MISSING_VALUE /\ str2float None = Ok (PFloat 0).
Proof.
  intros H; split; [|reflexivity].
  rewrite str2float_unfold, (cleaned_all_space s H); reflexivity.
Qed.

Lemma str2float_blank_text_witness :
  forallb Py_UNICODE_ISSPACE (u "  ") = true
  /\ str2float (Some (u "  ")) = Ok MISSING_VALUE
  /\ str2float None = Ok (PFloat 0).
Proof.
  split; [reflexivity|].
  apply (str2float_blank_text (u "  ")); reflexivity.
Defined.

(** ** Wind direction *)

Lemma dict_getitem_error {V} (d : dict V) (k : pystr) (e : exn) :
  dict_getitem d k = Raise e -> e = KeyError.
Proof.
  induction d as [|[k' v] r IH]; simpl; [congruence|].
  destruct (pystr_eqb k' k); [discriminate|exact IH].
Qed.

Lemma str2windir_unfold (s : pystr) :
  str2windir (Some s) =
  if str_in s [u "#"; u "×"] then Ok MISSING_VALUE
  else lookup_or_missing (cleaned s).
Proof.
  unfold str2windir, lookup_or_missing; fold (cleaned s).
  destruct (str_in s _); [reflexivity|].
  destruct (dict_getitem WIND_DIRECTION (cleaned s)) as [v|e] eqn:E;
    [reflexivity|].
  apply dict_getitem_error in E; subst e; reflexivity.
Qed.

Lemma str2windir_total (c : option pystr) : exists v, str2windir c = Ok v.
Proof.
  destruct c as [s|]; [|eexists; reflexivity].
  rewrite str2windir_unfold; unfold lookup_or_missing.
  destruct (str_in s _); [eauto|].
  destruct (dict_getitem _ _); eauto.
Qed.

(** The placeholder glyphs are their own cleaned text. *)
Lemma placeholder_inv (s : pystr) :
  str_in s [u "#"; u "×"] = true -> s = u "#" \/ s = u "×".
Proof.
  unfold str_in; simpl; rewrite orb_false_r, orb_true_iff.
  rewrite !pystr_eqb_eq; tauto.
Qed.

Lemma placeholder_lookup (s : pystr) :
  str_in s [u "#"; u "×"] = true ->
  cleaned s = s /\ lookup_or_missing s = Ok MISSING_VALUE.
Proof.
  intros H; destruct (placeholder_inv s H) as [-> | ->];
    split; vm_compute; reflexivity.
Qed.

Lemma str2windir_lookup (s : pystr) :
  str2windir (Some s) = lookup_or_missing (cleaned s).
Proof.
  rewrite str2windir_unfold.
  destruct (str_in s _) eqn:E; [|reflexivity].
  destruct (placeholder_lookup s E) as [-> ->]; reflexivity.
Qed.

(** ** C3 *)

(** C3.  For the [i]-th of the sixteen compass points, clockwise from
    north, [str2windir] returns [i] times 22.5 degrees; the calm token gives
    0; and since [')'] and surrounding white space are removed before the
    table lookup, this holds for every text whose cleaned form is the name
    (["北東 )"] gives 45). *)
Theorem str2windir_compass :
  (forall (i : nat) (name s : pystr),
      nth_error compass_points i = Some name ->
      cleaned s = name ->
      exists v, str2windir (Some s) = Ok v
                /\ float_of_num v = Ok (compass_angle i))
  /\ (forall s : pystr, cleaned s = calm -> str2windir (Some s) = Ok (PInt 0))
  /\ map (fun name => str2windir (Some name)) compass_points
     = [ Ok (PInt 0); Ok (PFloat 22.5); Ok (PInt 45); Ok (PFloat 67.5);
         Ok (PInt 90); Ok (PFloat 112.5); Ok (PInt 135); Ok (PFloat 157.5);
         Ok (PInt 180); Ok (PFloat 202.5); Ok (PInt 225); Ok (PFloat 247.5);
         Ok (PInt 270); Ok (PFloat 292.5); Ok (PInt 315); Ok (PFloat 337.5) ]
  /\ str2windir (Some (u "北東 )")) = Ok (PInt 45).
Proof.
  split; [|split; [|split; vm_compute; reflexivity]].
  - intros i name s Hi Hs.
    rewrite str2windir_lookup, Hs.
    do 16 (destruct i as [|i];
           [injection Hi as <-; eexists; split; vm_compute; reflexivity|]).
    destruct i; discriminate.
  - intros s Hs; rewrite str2windir_lookup, Hs; reflexivity.
Qed.

Lemma str2windir_compass_witness :
  nth_error compass_points 2 = Some (u "北東")
  /\ cleaned (u " 北東 )") = u "北東"
  /\ exists v, str2windir (Some (u " 北東 )")) = Ok v
               /\ float_of_num v = Ok (compass_angle 2).
Proof.
  split; [reflexivity|]. split; [reflexivity|].
  apply (proj1 str2windir_compass 2%nat (u "北東") (u " 北東 )"));
    reflexivity.
Defined.

(** ** C4 *)

(** C4, as stated, fails: the calm token is not mapped to the sentinel. *)
Lemma str2windir_calm_not_sentinel :
  str2windir (Some (u "静穏")) = Ok (PInt 0)
  /\ str2windir (Some (u "静穏")) <> Ok MISSING_VALUE.
Proof.
  split; [vm_compute; reflexivity|].
  vm_compute; discriminate.
Qed.

(** C4, amended.  [str2windir] returns the sentinel -9999 on the
    placeholder glyphs ['#'] and ['×'] and on absent input; on the calm
    token it returns 0. *)
Theorem str2windir_placeholders :
  str2windir (Some (u "#")) = Ok MISSING_VALUE
  /\ str2windir (Some (u "×")) = Ok MISSING_VALUE
  /\ str2windir None = Ok MISSING_VALUE
  /\ str2windir (Some (u "静穏")) = Ok (PInt 0).
Proof. repeat split; vm_compute; reflexivity. Qed.

(** ** C10 *)

(** C10.  Both converters delete every [')'] of the text, wherever it
    stands, and strip white space before they parse or look up: the cleaned
    text is the stripped text without any [')'], each converter gives on a
    text what it gives on the cleaned text, and [str2windir] returns the
    table's value at the cleaned text (the sentinel when it is not a key);
    ["1)2"] parses as 12 and ["北)東"] is looked up as ["北東"]. *)
Theorem converters_ignore_parens :
  (forall s : pystr,
      cleaned s = strip (filter (fun c => negb (41 =? c)%N) s)
      /\ ~ In 41%N (cleaned s)
      /\ str2float (Some s) = str2float (Some (cleaned s))
      /\ str2windir (Some s) = str2windir (Some (cleaned s))
      /\ str2windir (Some s)
         = match dict_getitem WIND_DIRECTION (cleaned s) with
           | Ok angle => Ok angle
           | Raise _ => Ok MISSING_VALUE
           end)
  /\ str2float (Some (u "1)2")) = Ok (PFloat 12)
  /\ str2float (Some (u ")1)2)")) = Ok (PFloat 12)
  /\ str2windir (Some (u "北)東")) = Ok (PInt 45)
  /\ str2windir (Some (u ")北北)東)")) = Ok (PFloat 22.5)
  /\ str2windir (Some (u "北 東")) = Ok (PInt (-9999)).
Proof.
  split; [|repeat split; vm_compute; reflexivity].
  intros s; split; [apply cleaned_filter|]; split; [|split; [|split]].
  - rewrite cleaned_filter; intros H.
    apply strip_incl, filter_In in H; destruct H as [_ H].
    rewrite N.eqb_refl in H; discriminate.
  - rewrite !str2float_unfold, cleaned_idem; reflexivity.
  - rewrite !str2windir_lookup, cleaned_idem; reflexivity.
  - exact (str2windir_lookup s).
Qed.

(** ** C2 *)

Lemma int_to_float_million : int_to_float (10 ^ 6) = Ok 1000000%float.
Proof. vm_compute; reflexivity. Qed.

Lemma int_to_float_3600 : int_to_float 3600 = Ok 3600%float.
Proof. vm_compute; reflexivity. Qed.

Lemma mj2w_float (x : float) :
  mj2w (PFloat x) =
  Ok (PFloat (if (0 <=? x)%float then (x * 1000000 / 3600)%float
              else 0%float)).
Proof.
  unfold mj2w, ge_zero.
  destruct (0 <=? x)%float; [|reflexivity].
  unfold mul_int; rewrite int_to_float_million; cbn [bind].
  unfold div_int; rewrite int_to_float_3600; cbn [bind].
  reflexivity.
Qed.

(** A float below zero is not at least zero. *)
Lemma ltb_zero_not_leb (x : float) :
  (x <? 0)%float = true -> (0 <=? x)%float = false.
Proof.
  rewrite ltb_spec, leb_spec.
  change (Prim2SF 0) with (S754_zero false).
  destruct (Prim2SF x) as [s|s| |s m e]; try destruct s;
    cbv; congruence.
Qed.

(** C2, as stated, fails at NaN, which is not negative: the result is 0.0
    and not NaN times 10^6 / 3600 (which is NaN). *)
Lemma mj2w_nan_not_scaled :
  (nan <? 0)%float = false
  /\ mj2w (PFloat nan) = Ok (PFloat 0)
  /\ mj2w (PFloat nan) <> Ok (PFloat (nan * 1000000 / 3600)).
Proof.
  split; [reflexivity|]. split; [vm_compute; reflexivity|].
  vm_compute; intros H; apply ok_float_inj in H.
  exact (float_neq_by is_nan 0%float nan
                      ltac:(vm_compute; discriminate) H).
Qed.

(** C2, amended.  For every float [x], [mj2w] returns [x * 10^6 / 3600]
    when [x >= 0] and 0.0 otherwise, that is when [x] is negative or NaN;
    [mj2w(1.0)] is [1000000/3600], [mj2w(-1.0)] is 0.0, and the sentinel
    -9999, being negative, gives 0.0 as well. *)
Theorem mj2w_cases :
  (forall x : float,
      mj2w (PFloat x) =
      Ok (PFloat (if (0 <=? x)%float then (x * 1000000 / 3600)%float
                  else 0%float)))
  /\ (forall x : float, (x <? 0)%float = true -> mj2w (PFloat x) = Ok (PFloat 0))
  /\ mj2w (PFloat nan) = Ok (PFloat 0)
  /\ (q <- int_truediv 1000000 3600 ;; Ok (PFloat q))%py = mj2w (PFloat 1)
  /\ mj2w (PFloat (-1)) = Ok (PFloat 0)
  /\ mj2w MISSING_VALUE = Ok (PFloat 0)
  /\ mj2w (PFloat (-9999)) = Ok (PFloat 0).
Proof.
  split; [exact mj2w_float|].
  split; [|repeat split; vm_compute; reflexivity].
  intros x Hx; rewrite mj2w_float, (ltb_zero_not_leb x Hx); reflexivity.
Qed.

Lemma mj2w_cases_witness :
  (-2.5 <? 0)%float = true /\ mj2w (PFloat (-2.5)) = Ok (PFloat 0).
Proof.
  split; [reflexivity|].
  apply (proj1 (proj2 mj2w_cases) (-2.5)%float); reflexivity.
Defined.

End Converters.

(* ================================================================== *)
(** * The row extractor *)
(* ================================================================== *)

Module Rows.
Import Py Amedas Spec PyFacts.

(** On what [str2float] returns, [mj2w] returns too. *)
Lemma mj2w_after_str2float (c : option pystr) (x : pynum) :
  str2float c = Ok x -> exists v, mj2w x = Ok v.
Proof.
  intros H.
  destruct (Converters.str2float_total c) as [x' [H' Hx]].
  rewrite H in H'; injection H' as <-.
  destruct Hx as [-> | [f ->]].
  - exists (PFloat 0); reflexivity.
  - rewrite Converters.mj2w_float; eauto.
Qed.

Section Row.

Variable d : date.

(** The record of a row with at least 14 cells, field by field. *)
Lemma data_row_values (tds : tr) :
  (14 <= List.length tds)%nat ->
  exists v1 v2 v3 v4 v5 v6 v7 v8 v9 v10 x11 v11 v12 v13,
    data_row d tds =
    Ok [ ODate d; obj_of_string (nth 0 tds None);
         ONum v1; ONum v2; ONum v3; ONum v4; ONum v5; ONum v6; ONum v7;
         ONum v8; ONum v9; ONum v10; ONum v11; ONum v12; ONum v13 ]
    /\ str2float (nth 1 tds None) = Ok v1
    /\ str2float (nth 2 tds None) = Ok v2
    /\ str2float (nth 3 tds None) = Ok v3
    /\ str2float (nth 4 tds None) = Ok v4
    /\ str2float (nth 5 tds None) = Ok v5
    /\ str2float (nth 6 tds None) = Ok v6
    /\ str2float (nth 7 tds None) = Ok v7
    /\ str2float (nth 8 tds None) = Ok v8
    /\ str2windir (nth 9 tds None) = Ok v9
    /\ str2float (nth 10 tds None) = Ok v10
    /\ str2float (nth 11 tds None) = Ok x11 /\ mj2w x11 = Ok v11
    /\ str2float (nth 12 tds None) = Ok v12
    /\ str2float (nth 13 tds None) = Ok v13.
Proof.
  intros Hlen.
  destruct tds
    as [|c0 [|c1 [|c2 [|c3 [|c4 [|c5 [|c6 [|c7 [|c8 [|c9 [|c10 [|c11 [|c12
        [|c13 rest]]]]]]]]]]]]]];
    try (simpl in Hlen; lia).
  destruct (Converters.str2float_total c1) as [v1 [H1 _]].
  destruct (Converters.str2float_total c2) as [v2 [H2 _]].
  destruct (Converters.str2float_total c3) as [v3 [H3 _]].
  destruct (Converters.str2float_total c4) as [v4 [H4 _]].
  destruct (Converters.str2float_total c5) as [v5 [H5 _]].
  destruct (Converters.str2float_total c6) as [v6 [H6 _]].
  destruct (Converters.str2float_total c7) as [v7 [H7 _]].
  destruct (Converters.str2float_total c8) as [v8 [H8 _]].
  destruct (Converters.str2windir_total c9) as [v9 H9].
  destruct (Converters.str2float_total c10) as [v10 [H10 _]].
  destruct (Converters.str2float_total c11) as [x11 [H11 _]].
  destruct (mj2w_after_str2float c11 x11 H11) as [v11 Hw].
  destruct (Converters.str2float_total c12) as [v12 [H12 _]].
  destruct (Converters.str2float_total c13) as [v13 [H13 _]].
  exists v1, v2, v3, v4, v5, v6, v7, v8, v9, v10, x11, v11, v12, v13.
  cbn [nth]; unfold data_row; cbn [list_getitem nth_error bind].
  rewrite H1, H2, H3, H4, H5, H6, H7, H8, H9, H10, H11; cbn [bind].
  rewrite Hw, H12, H13; cbn [bind].
  repeat split; assumption.
Qed.

Lemma data_row_length (tds : tr) (rec : list pyobj) :
  (14 <= List.length tds)%nat ->
  data_row d tds = Ok rec -> List.length rec = 15%nat.
Proof.
  intros Hlen Hrow.
  destruct (data_row_values tds Hlen)
    as (v1 & v2 & v3 & v4 & v5 & v6 & v7 & v8 & v9 & v10 & x11 & v11
        & v12 & v13 & Heq & _).
  rewrite Heq in Hrow; injection Hrow as <-; reflexivity.
Qed.

(** The loop appends, in order, the record of every row that is not
    short, and never fails. *)
Lemma rows_loop_spec (trs : list tr) :
  forall acc, exists recs,
    rows_loop d trs acc = Ok (acc ++ recs)
    /\ Forall2 (fun tds rec => data_row d tds = Ok rec)
               (filter full_row trs) recs.
Proof.
  induction trs as [|tds rest IH]; intros acc; simpl.
  - exists []; rewrite app_nil_r; auto.
  - unfold full_row, short_row.
    destruct (List.length tds <? 14)%nat eqn:E; simpl.
    + apply IH.
    + apply Nat.ltb_ge in E.
      destruct (data_row_values tds E)
        as (v1 & v2 & v3 & v4 & v5 & v6 & v7 & v8 & v9 & v10 & x11 & v11
            & v12 & v13 & Heq & _).
      rewrite Heq; cbn [bind].
      destruct (IH (acc ++ [ [ ODate d; obj_of_string (nth 0 tds None);
         ONum v1; ONum v2; ONum v3; ONum v4; ONum v5; ONum v6; ONum v7;
         ONum v8; ONum v9; ONum v10; ONum v11; ONum v12; ONum v13 ] ]))
        as [recs [Hloop Hall]].
      eexists (_ :: recs); split.
      * rewrite Hloop, <- app_assoc; reflexivity.
      * constructor; [exact Heq | exact Hall].
Qed.

Lemma filter_full_short (trs : list tr) :
  (List.length (filter full_row trs) + List.length (filter short_row trs)
   = List.length trs)%nat.
Proof.
  induction trs as [|tds rest IH]; [reflexivity|].
  cbn [filter]; unfold full_row at 1.
  destruct (short_row tds); cbn [negb List.length]; lia.
Qed.

Lemma full_row_length (tds : tr) :
  full_row tds = true -> (14 <= List.length tds)%nat.
Proof.
  unfold full_row, short_row; intros H.
  apply negb_true_iff, Nat.ltb_ge in H; exact H.
Qed.

Lemma records_complete (kept : list tr) (recs : list (list pyobj)) :
  Forall (fun tds => (14 <= List.length tds)%nat) kept ->
  Forall2 (fun tds rec => data_row d tds = Ok rec) kept recs ->
  Forall (fun rec => List.length rec = 15%nat) recs.
Proof.
  intros Hfull Hall; induction Hall as [|tds rec l l' Hrow _ IH].
  - constructor.
  - inversion Hfull as [|? ? Hlen Hrest]; subst.
    constructor; [exact (data_row_length tds rec Hlen Hrow) | exact (IH Hrest)].
Qed.

(** C6.  On a table of two header rows followed by N data rows, M of which
    have fewer than 14 cells, the row extractor returns N - M records: the
    records of the rows with at least 14 cells, in the order of these rows;
    every record is complete (15 fields). *)
Theorem extract_rows_count (h1 h2 : tr) (rows : list tr) :
  exists recs,
    extract_rows d (h1 :: h2 :: rows) = Ok recs
    /\ List.length recs
       = (List.length rows - List.length (filter short_row rows))%nat
    /\ Forall2 (fun tds rec => data_row d tds = Ok rec)
               (filter full_row rows) recs
    /\ Forall (fun rec => List.length rec = 15%nat) recs.
Proof.
  unfold extract_rows; cbn [skipn].
  destruct (rows_loop_spec rows []) as [recs [Hloop Hall]].
  exists recs; split; [exact Hloop|]. split; [|split; [exact Hall|]].
  - rewrite <- (Forall2_length Hall).
    pose proof (filter_full_short rows); lia.
  - apply (records_complete (filter full_row rows)); [|exact Hall].
    apply Forall_forall; intros tds Hin.
    apply filter_In in Hin; apply full_row_length; tauto.
Qed.

(** C7.  The record built from a row with at least 14 cells has exactly
    these 15 fields, in this order: the date; the text of cell 0 as it is
    (the string itself, or [None] when the cell has none); [str2float] of
    cells 1 to 8; [str2windir] of cell 9; [str2float] of cell 10; [mj2w]
    of [str2float] of cell 11; [str2float] of cells 12 and 13. *)
Theorem data_row_fields (tds : tr) :
  (14 <= List.length tds)%nat ->
  exists v1 v2 v3 v4 v5 v6 v7 v8 v9 v10 x11 v11 v12 v13,
    data_row d tds =
    Ok [ ODate d;
         match nth 0 tds None with
         | Some hour => OStr hour
         | None => ONone
         end;
         ONum v1; ONum v2; ONum v3; ONum v4; ONum v5; ONum v6; ONum v7;
         ONum v8; ONum v9; ONum v10; ONum v11; ONum v12; ONum v13 ]
    /\ str2float (nth 1 tds None) = Ok v1
    /\ str2float (nth 2 tds None) = Ok v2
    /\ str2float (nth 3 tds None) = Ok v3
    /\ str2float (nth 4 tds None) = Ok v4
    /\ str2float (nth 5 tds None) = Ok v5
    /\ str2float (nth 6 tds None) = Ok v6
    /\ str2float (nth 7 tds None) = Ok v7
    /\ str2float (nth 8 tds None) = Ok v8
    /\ str2windir (nth 9 tds None) = Ok v9
    /\ str2float (nth 10 tds None) = Ok v10
    /\ str2float (nth 11 tds None) = Ok x11 /\ mj2w x11 = Ok v11
    /\ str2float (nth 12 tds None) = Ok v12
    /\ str2float (nth 13 tds None) = Ok v13.
Proof. exact (data_row_values tds). Qed.

End Row.

Lemma data_row_fields_witness :
  (14 <= List.length sample_row)%nat
  /\ exists v1 v2 v3 v4 v5 v6 v7 v8 v9 v10 x11 v11 v12 v13,
    data_row sample_date sample_row =
    Ok [ ODate sample_date; OStr (u "1");
         ONum v1; ONum v2; ONum v3; ONum v4; ONum v5; ONum v6; ONum v7;
         ONum v8; ONum v9; ONum v10; ONum v11; ONum v12; ONum v13 ]
    /\ str2float (nth 1 sample_row None) = Ok v1
    /\ str2float (nth 2 sample_row None) = Ok v2
    /\ str2float (nth 3 sample_row None) = Ok v3
    /\ str2float (nth 4 sample_row None) = Ok v4
    /\ str2float (nth 5 sample_row None) = Ok v5
    /\ str2float (nth 6 sample_row None) = Ok v6
    /\ str2float (nth 7 sample_row None) = Ok v7
    /\ str2float (nth 8 sample_row None) = Ok v8
    /\ str2windir (nth 9 sample_row None) = Ok v9
    /\ str2float (nth 10 sample_row None) = Ok v10
    /\ str2float (nth 11 sample_row None) = Ok x11 /\ mj2w x11 = Ok v11
    /\ str2float (nth 12 sample_row None) = Ok v12
    /\ str2float (nth 13 sample_row None) = Ok v13.
Proof.
  split; [simpl; lia|].
  apply (data_row_fields sample_date sample_row); simpl; lia.
Defined.

#[local] Set Warnings "-inexact-float".

(** The sample row, end to end: 45 degrees for the north-east and 1.5 MJ/m2
    as 416.67 W/m2. *)
Example data_row_sample :
  data_row sample_date sample_row =
  Ok [ ODate sample_date; OStr (u "1");
       ONum (PFloat 1013.2); ONum (PFloat 1016); ONum (PFloat 0);
       ONum (PFloat 5.4); ONum (PFloat (-1.2)); ONum (PFloat 5.6);
       ONum (PFloat 62); ONum (PFloat 2.1); ONum (PInt 45);
       ONum (PFloat 0.8); ONum (PFloat 416.66666666666669);
       ONum (PFloat 0); ONum (PInt (-9999)) ].
Proof. vm_compute; reflexivity. Qed.

End Rows.

(* ================================================================== *)
(** * The retrying fetcher *)
(* ================================================================== *)

Module Fetch.
Import Py Amedas Spec.

(** Powers of two up to [2 ** 1023] convert to [float]. *)
Lemma pow2_converts (n : nat) :
  (n < 1024)%nat ->
  int_to_float (2 ^ Z.of_nat n) = Ok (pow2_float (Z.of_nat n)).
Proof.
  intros Hn.
  assert (Hall : forallb
            (fun n => match binary_normalize prec emax (2 ^ Z.of_nat n) 0 false
                      with S754_infinity _ => false | _ => true end)
            (seq 0 1024) = true) by (vm_compute; reflexivity).
  rewrite forallb_forall in Hall.
  specialize (Hall n ltac:(apply in_seq; lia)).
  unfold int_to_float, pow2_float.
  destruct (binary_normalize prec emax (2 ^ Z.of_nat n) 0 false);
    try reflexivity; discriminate.
Qed.

Lemma mul_int_pow2 (bf : float) (n : nat) :
  (n < 1024)%nat ->
  mul_int (PFloat bf) (2 ^ Z.of_nat n) = Ok (backoff_delay bf (Z.of_nat n)).
Proof.
  intros Hn; unfold mul_int; rewrite (pow2_converts n Hn); reflexivity.
Qed.

(** The delays of the default schedule, 0.5 s and 1 s, are accepted. *)
Lemma default_delays_accepted (j : nat) :
  (Z.of_nat j < 3 - 1)%Z ->
  time_sleep_check (backoff_delay 0.5 (Z.of_nat j)) = Ok tt.
Proof.
  intros H; destruct j as [|[|j]]; [reflexivity|reflexivity|lia].
Qed.

Lemma flat_map_seq_shift {B} (f : nat -> list B) (k : nat) :
  forall a, flat_map f (seq (S a) k) = flat_map (fun j => f (S j)) (seq a k).
Proof.
  induction k as [|k IH]; intros a; cbn [seq flat_map]; [reflexivity|].
  rewrite IH; reflexivity.
Qed.

Section Fetching.

Variable html : Type.
Variable urlopen_outcome : nat -> string -> result (response html).
Variable url : string.
Variable max_retries : Z.
Variable backoff_factor : float.

Hypothesis budget : (max_retries <= 1025)%Z.

(** [time.sleep] accepts every delay of the schedule. *)
Hypothesis delays_accepted :
  forall j : nat,
    (Z.of_nat j < max_retries - 1)%Z ->
    time_sleep_check (backoff_delay backoff_factor (Z.of_nat j)) = Ok tt.

Local Abbreviation attempt_ :=
  (attempt html urlopen_outcome url max_retries backoff_factor).
Local Abbreviation exhausted_ :=
  (raiseM (Exception_ (exhausted_message max_retries))).
Local Abbreviation events_ :=
  (failed_attempt_events url max_retries backoff_factor).

Lemma attempt_success (w : world) (i : Z) (r : response html) :
  urlopen_outcome (net_calls w) url = Ok r ->
  attempt_ i w =
  (Ok (Some r), {| net_calls := S (net_calls w);
                   trace := Request url :: trace w |}).
Proof.
  intros H; unfold attempt, tryM, bindM, urlopen, retM; rewrite H.
  reflexivity.
Qed.

Lemma attempt_other_error (w : world) (i : Z) (e : exn) :
  urlopen_outcome (net_calls w) url = Raise e ->
  is_URLError e = false ->
  attempt_ i w =
  (Raise e, {| net_calls := S (net_calls w);
               trace := Request url :: trace w |}).
Proof.
  intros H He; unfold attempt, tryM, bindM, urlopen; rewrite H.
  cbn [select_handler]; rewrite He; reflexivity.
Qed.

Lemma attempt_url_error (w : world) (j : nat) (reason : string) :
  urlopen_outcome (net_calls w) url = Raise (URLError reason) ->
  attempt_ (Z.of_nat j) w =
  (Ok None, {| net_calls := S (net_calls w);
               trace := rev (events_ j reason) ++ trace w |}).
Proof.
  intros H; unfold attempt, tryM, bindM, urlopen; rewrite H.
  cbn [select_handler is_URLError reason_of].
  unfold failed_attempt_events, print, sleep, retM, liftM.
  cbn [net_calls trace].
  destruct (Z.of_nat j <? max_retries - 1)%Z eqn:E.
  - apply Z.ltb_lt in E.
    rewrite (mul_int_pow2 backoff_factor j) by lia.
    cbv beta iota; rewrite (delays_accepted j E).
    reflexivity.
  - reflexivity.
Qed.

(** The retry loop from index [a] on, with [len] indices left. *)
Lemma retry_loop_spec (len : nat) :
  forall (a : nat) (w : world) (res : result (response html)) (w' : world),
    for_returning attempt_ (map Z.of_nat (seq a len)) exhausted_ w
    = (res, w') ->
    exists k : nat,
      (k <= len)%nat
      /\ (forall j, (j < k)%nat ->
            exists reason,
              urlopen_outcome (net_calls w + j)%nat url
              = Raise (URLError reason))
      /\ net_calls w' = (net_calls w + Nat.min (S k) len)%nat
      /\ rev (trace w')
         = rev (trace w)
           ++ flat_map
                (fun j => events_ (a + j)%nat
                   (failure_reason (urlopen_outcome (net_calls w + j)%nat url)))
                (seq 0 k)
           ++ (if (k <? len)%nat then [Request url] else [])
      /\ match res with
         | Ok r =>
           (k < len)%nat
           /\ urlopen_outcome (net_calls w + k)%nat url = Ok r
         | Raise e =>
           (k = len /\ e = Exception_ (exhausted_message max_retries))
           \/ ((k < len)%nat
               /\ urlopen_outcome (net_calls w + k)%nat url = Raise e
               /\ is_URLError e = false)
         end.
Proof.
  induction len as [|len IH]; intros a w res w' Hrun.
  - cbn in Hrun; injection Hrun as <- <-.
    exists 0%nat; cbn; rewrite app_nil_r.
    repeat split; auto; intros; lia.
  - cbn [seq map for_returning] in Hrun; unfold bindM at 1 in Hrun.
    destruct (urlopen_outcome (net_calls w) url) as [r|e] eqn:Hout.
    + rewrite (attempt_success w _ r Hout) in Hrun.
      injection Hrun as <- <-.
      exists 0%nat; cbn [seq flat_map net_calls trace rev app Nat.ltb Nat.leb].
      rewrite Nat.add_0_r.
      repeat split; auto; try lia; intros; lia.
    + destruct (is_URLError e) eqn:He.
      * destruct e; try discriminate.
        rewrite (attempt_url_error w a reason Hout) in Hrun.
        destruct (IH (S a) _ res w' Hrun)
          as (k & Hk & Hfail & Hcalls & Htrace & Hres).
        cbn [net_calls trace] in Hfail, Hcalls, Htrace, Hres.
        exists (S k); split; [lia|]. split; [|split; [|split]].
        -- intros [|j] Hj.
           ++ rewrite Nat.add_0_r; eauto.
           ++ replace (net_calls w + S j)%nat with (S (net_calls w) + j)%nat
                by lia.
              apply Hfail; lia.
        -- rewrite Hcalls; cbn [Nat.min]; lia.
        -- rewrite Htrace, rev_app_distr, rev_involutive, <- !app_assoc.
           f_equal.
           cbn [seq flat_map]; rewrite !Nat.add_0_r, Hout.
           cbn [failure_reason reason_of]; rewrite <- !app_assoc.
           f_equal.
           rewrite flat_map_seq_shift.
           change (S k <? S len)%nat with (k <? len)%nat.
           f_equal.
           apply flat_map_ext; intros j.
           replace (S a + j)%nat with (a + S j)%nat by lia.
           replace (S (net_calls w) + j)%nat with (net_calls w + S j)%nat
             by lia.
           reflexivity.
        -- replace (net_calls w + S k)%nat with (S (net_calls w) + k)%nat
             by lia.
           destruct res as [r|e].
           ++ destruct Hres; split; [lia|assumption].
           ++ destruct Hres as [[-> ->] | (Hlt & Ho & Hnot)];
                [left; auto | right; repeat split; auto; lia].
      * rewrite (attempt_other_error w _ e Hout He) in Hrun.
        injection Hrun as <- <-.
        exists 0%nat; cbn [seq flat_map net_calls trace rev app Nat.ltb Nat.leb].
        rewrite Nat.add_0_r.
        split; [lia|]. split; [intros; lia|]. split; [cbn [Nat.min]; lia|].
        split; [reflexivity|].
        right; repeat split; auto; lia.
Qed.

(** C9, amended.  [fetch_url_with_retry] calls [urlopen] at most
    [max_retries] times (3 by default).  With [k] the number of leading
    attempts that fail with [URLError]: each of them is logged and followed
    by a sleep of [backoff_factor * 2 ** i], [i] its index from zero, except
    at the last index of the budget; the response of the first successful
    attempt is returned; the function raises [Exception] when all
    [max_retries] attempts fail with [URLError], and raises at once, without
    further attempts, the exception of an attempt that fails otherwise.
    (Budgets up to 1025, for which every [2 ** i] converts to a float, and
    delays that [time.sleep] accepts: neither negative nor NaN nor beyond
    the range of 64-bit nanoseconds.) *)
Theorem fetch_url_with_retry_spec
        (w : world) (res : result (response html)) (w' : world) :
  fetch_url_with_retry html urlopen_outcome url max_retries backoff_factor w
  = (res, w') ->
  MAX_RETRIES = 3%Z
  /\ exists k : nat,
      (k <= Z.to_nat max_retries)%nat
      /\ (forall j, (j < k)%nat ->
            exists reason,
              urlopen_outcome (net_calls w + j)%nat url
              = Raise (URLError reason))
      /\ net_calls w' = (net_calls w + Nat.min (S k) (Z.to_nat max_retries))%nat
      /\ (net_calls w' <= net_calls w + Z.to_nat max_retries)%nat
      /\ rev (trace w')
         = rev (trace w)
           ++ flat_map
                (fun j => events_ j
                   (failure_reason (urlopen_outcome (net_calls w + j)%nat url)))
                (seq 0 k)
           ++ (if (k <? Z.to_nat max_retries)%nat then [Request url] else [])
      /\ match res with
         | Ok r =>
           (k < Z.to_nat max_retries)%nat
           /\ urlopen_outcome (net_calls w + k)%nat url = Ok r
         | Raise e =>
           (k = Z.to_nat max_retries
            /\ e = Exception_ (exhausted_message max_retries))
           \/ ((k < Z.to_nat max_retries)%nat
               /\ urlopen_outcome (net_calls w + k)%nat url = Raise e
               /\ is_URLError e = false)
         end.
Proof.
  intros Hrun; split; [reflexivity|].
  unfold fetch_url_with_retry, range in Hrun.
  destruct (retry_loop_spec (Z.to_nat max_retries) 0 w res w' Hrun)
    as (k & Hk & Hfail & Hcalls & Htrace & Hres).
  exists k; repeat split; auto.
  rewrite Hcalls; lia.
Qed.

End Fetching.

Lemma fetch_url_with_retry_spec_witness :
  (3 <= 1025)%Z
  /\ (forall j : nat,
         (Z.of_nat j < 3 - 1)%Z ->
         time_sleep_check (backoff_delay 0.5 (Z.of_nat j)) = Ok tt)
  /\ fetch_url_with_retry unit flaky sample_url 3 0.5 initial_world
     = (Ok ok_response, flaky_final_world)
  /\ MAX_RETRIES = 3%Z
  /\ exists k : nat,
      (k <= Z.to_nat 3)%nat
      /\ (forall j, (j < k)%nat ->
            exists reason,
              flaky (net_calls initial_world + j)%nat sample_url
              = Raise (URLError reason))
      /\ net_calls flaky_final_world
         = (net_calls initial_world + Nat.min (S k) (Z.to_nat 3))%nat
      /\ (net_calls flaky_final_world
          <= net_calls initial_world + Z.to_nat 3)%nat
      /\ rev (trace flaky_final_world)
         = rev (trace initial_world)
           ++ flat_map
                (fun j => failed_attempt_events sample_url 3 0.5 j
                   (failure_reason
                      (flaky (net_calls initial_world + j)%nat sample_url)))
                (seq 0 k)
           ++ (if (k <? Z.to_nat 3)%nat then [Request sample_url] else [])
      /\ (k < Z.to_nat 3)%nat
      /\ flaky (net_calls initial_world + k)%nat sample_url = Ok ok_response.
Proof.
  split; [lia|]. split; [exact default_delays_accepted|].
  split; [reflexivity|].
  apply (fetch_url_with_retry_spec unit flaky sample_url 3 0.5%float
           ltac:(lia) default_delays_accepted
           initial_world (Ok ok_response) flaky_final_world).
  reflexivity.
Defined.

(** C9, as stated, fails: an attempt that fails with an exception other
    than [URLError] makes the function raise at once; here it raises after
    one attempt of three, and the two attempts left would have succeeded. *)
Lemma fetch_raises_before_budget_spent :
  fetch_url_with_retry unit rejected_once sample_url 3 0.5 initial_world
  = (Raise ValueError,
     {| net_calls := 1; trace := [Request sample_url] |})
  /\ rejected_once 1 sample_url = Ok ok_response
  /\ rejected_once 2 sample_url = Ok ok_response.
Proof. repeat split. Qed.

End Fetch.

(* ================================================================== *)
(** * The day orchestrator *)
(* ================================================================== *)

Module Orchestrator.
Import Py Amedas Spec.

Lemma bindM_run {A B} (c : M A) (k : A -> M B) (w : world) :
  bindM c k w =
  match c w with
  | (Ok a, w') => k a w'
  | (Raise e, w') => (Raise e, w')
  end.
Proof. reflexivity. Qed.

Lemma tryM_run {A} (c : M A) (hs : list ((exn -> bool) * (exn -> M A)))
      (w : world) :
  tryM c hs w =
  match c w with
  | (Ok a, w') => (Ok a, w')
  | (Raise e, w') => select_handler hs e w'
  end.
Proof. reflexivity. Qed.

(** What the [except] clauses of [scraping] make of an exception raised
    in its [try] block: every [Exception] ends the process with status 1. *)
Lemma handlers_exit {A} (e : exn) (w : world) :
  exists w',
    select_handler
      [ (is_URLError, fun e : exn =>
           (print (MsgURLError (reason_of e)) ;; @sys_exit A 1)%io);
        (is_Exception, fun e : exn =>
           (print (MsgError e) ;; print MsgRerun ;; @sys_exit A 1)%io) ]
      e w
    = (Raise (if is_Exception e then SystemExit 1 else e), w').
Proof. destruct e; eexists; reflexivity. Qed.

Ltac run_io :=
  repeat rewrite bindM_run; cbv beta iota delta [liftM retM].

Ltac exit_by_handler A :=
  cbv beta iota delta [liftM retM];
  match goal with
  | |- context [select_handler ?hs ?e ?w] =>
    let w' := fresh "w" in
    let H := fresh "H" in
    destruct (@handlers_exit A e w) as [w' H];
    rewrite H; reflexivity
  end.

Section Scraping.

Variable html : Type.
Variable urlopen_outcome : nat -> string -> result (response html).
Variable BeautifulSoup : html -> result soup.

(** C8, amended.  [scraping] ends the process ([SystemExit] with status 1)
    when the fetch raises an exception (the retry budget is exhausted, or
    [urlopen] fails otherwise), when reading the response or parsing the
    page raises one, when the HTTP status is not 200, when the parsed
    document lacks [html], [head] or [body], and when no [table] of class
    [data2_s] is found; in every other case it returns the row extractor's
    output for the date, which is a list of records. *)
Theorem scraping_cases (url : string) (d : date) (w : world) :
  let fetched :=
      fetch_url_with_retry html urlopen_outcome url MAX_RETRIES
                           BACKOFF_FACTOR w in
  let outcome :=
      fst (scraping html urlopen_outcome BeautifulSoup url d w) in
  match fst fetched with
  | Raise e => outcome = Raise (if is_Exception e then SystemExit 1 else e)
  | Ok response =>
    match read html response with
    | Raise e => outcome = Raise (if is_Exception e then SystemExit 1 else e)
    | Ok page =>
      if negb (getcode html response =? 200)%Z
      then outcome = Raise (SystemExit 1)
      else
        match BeautifulSoup page with
        | Raise e =>
          outcome = Raise (if is_Exception e then SystemExit 1 else e)
        | Ok doc =>
          if negb (soup_html doc) || negb (soup_head doc)
             || negb (soup_body doc)
          then outcome = Raise (SystemExit 1)
          else
            match soup_find doc "table" "data2_s" with
            | None => outcome = Raise (SystemExit 1)
            | Some t =>
              outcome = extract_rows d t
              /\ exists recs, extract_rows d t = Ok recs
            end
        end
    end
  end.
Proof.
  cbv zeta.
  unfold scraping, fetch_and_validate.
  rewrite bindM_run, tryM_run, bindM_run.
  destruct (fetch_url_with_retry html urlopen_outcome url MAX_RETRIES
                                 BACKOFF_FACTOR w) as [[response|e] w1];
    cbn [fst]; [|exit_by_handler html].
  run_io.
  destruct (read html response) as [page|e]; [|exit_by_handler html].
  run_io.
  destruct (negb (getcode html response =? 200)%Z); [reflexivity|].
  run_io.
  destruct (BeautifulSoup page) as [doc|e] eqn:Hdoc; [|exit_by_handler html].
  run_io.
  destruct (negb (soup_html doc) || negb (soup_head doc)
            || negb (soup_body doc)); [reflexivity|].
  run_io; rewrite Hdoc; cbv beta iota.
  destruct (soup_find doc "table" "data2_s") as [t|]; [|reflexivity].
  split; [reflexivity|].
  unfold extract_rows.
  destruct (Rows.rows_loop_spec d (skipn 2 t) []) as [recs [Hloop _]].
  exists recs; exact Hloop.
Qed.

End Scraping.

(** C8, as stated, fails: when the server cannot be reached no response is
    ever obtained, so there is no status other than 200, no document that
    lacks a part and no table that is missing (the parser used here finds
    all of them in every page), and yet [scraping] ends the process. *)
Lemma scraping_exits_on_fetch_failure :
  fst (scraping unit unreachable parse_complete sample_url sample_date
                initial_world)
  = Raise (SystemExit 1)
  /\ (forall n url r, unreachable n url <> Ok r)
  /\ (forall page, exists doc,
         parse_complete page = Ok doc
         /\ soup_html doc = true /\ soup_head doc = true
         /\ soup_body doc = true
         /\ soup_find doc "table" "data2_s" <> None).
Proof.
  split; [vm_compute; reflexivity|]. split.
  - intros n url r; discriminate.
  - intros page; exists complete_soup; repeat split; discriminate.
Qed.

End Orchestrator.

(* ================================================================== *)
(** * Further properties of the converters *)
(* ================================================================== *)

Module ConverterFacts.
Import Py Amedas Spec PyFacts.

(** ** Table lookup *)

Lemma dict_getitem_In {V} (d : dict V) (k : pystr) (v : V) :
  NoDup (map fst d) -> (dict_getitem d k = Ok v <-> In (k, v) d).
Proof.
  induction d as [|[k' v'] r IH]; simpl; intros Hnd.
  - split; [discriminate|tauto].
  - inversion Hnd as [|? ? Hnotin Hnd']; subst.
    destruct (pystr_eqb k' k) eqn:E.
    + apply pystr_eqb_eq in E; subst k'.
      split.
      * intros H; injection H as ->; auto.
      * intros [H|H]; [injection H as ->; reflexivity|].
        exfalso; apply Hnotin, in_map_iff; exists (k, v); auto.
    + rewrite (IH Hnd'); split; [auto|].
      intros [H|H]; [|exact H].
      injection H as -> _.
      assert (pystr_eqb k k = true) by (apply pystr_eqb_eq; reflexivity).
      congruence.
Qed.

Lemma compass_keys_nodup : NoDup compass_keys.
Proof.
  assert (H : forall l : list pystr,
             (fix nd (l : list pystr) : bool :=
                match l with
                | [] => true
                | x :: r => negb (existsb (pystr_eqb x) r) && nd r
                end) l = true -> NoDup l).
  { induction l as [|x r IH]; intros Hb; constructor.
    - apply andb_true_iff in Hb; destruct Hb as [Hx _].
      intros Hin; apply negb_true_iff in Hx.
      assert (existsb (pystr_eqb x) r = true)
        by (apply existsb_exists; exists x; split;
            [exact Hin | apply pystr_eqb_eq; reflexivity]).
      congruence.
    - apply IH; apply andb_true_iff in Hb; tauto. }
  apply H; vm_compute; reflexivity.
Qed.

Lemma str2windir_lookup_iff (c : option pystr) (v : pynum) :
  str2windir c = Ok v <->
  (exists s, c = Some s /\ In (cleaned s, v) WIND_DIRECTION)
  \/ (v = MISSING_VALUE
      /\ (c = None
          \/ exists s, c = Some s /\ ~ In (cleaned s) compass_keys)).
Proof.
  pose proof compass_keys_nodup as Hnd.
  destruct c as [s|].
  - rewrite Converters.str2windir_lookup; unfold lookup_or_missing.
    destruct (dict_getitem WIND_DIRECTION (cleaned s)) as [v'|e] eqn:E.
    + apply (dict_getitem_In WIND_DIRECTION _ _ Hnd) in E.
      split.
      * intros H; injection H as <-; left; eauto.
      * intros [(s' & Hs & Hin) | (_ & [Hc | (s' & Hs & Hnot)])].
        -- injection Hs as <-.
           apply (dict_getitem_In WIND_DIRECTION _ _ Hnd) in Hin, E.
           congruence.
        -- discriminate.
        -- injection Hs as <-; exfalso; apply Hnot.
           apply in_map_iff; exists (cleaned s, v'); auto.
    + split.
      * intros H; injection H as <-; right; split; [reflexivity|].
        right; exists s; split; [reflexivity|].
        intros Hin; apply in_map_iff in Hin.
        destruct Hin as [[k v'] [Hk Hin]]; simpl in Hk; subst k.
        apply (dict_getitem_In WIND_DIRECTION _ _ Hnd) in Hin; congruence.
      * intros [(s' & Hs & Hin) | (-> & _)]; [|reflexivity].
        injection Hs as <-.
        apply (dict_getitem_In WIND_DIRECTION _ _ Hnd) in Hin; congruence.
  - split.
    + intros H; injection H as <-; right; auto.
    + intros [(s & Hs & _) | (-> & _)]; [discriminate|reflexivity].
Qed.

(** ** Range of the wind direction *)

Ltac find_angle :=
  first [ exists 0%nat; split; [lia | vm_compute; reflexivity]
        | exists 1%nat; split; [lia | vm_compute; reflexivity]
        | exists 2%nat; split; [lia | vm_compute; reflexivity]
        | exists 3%nat; split; [lia | vm_compute; reflexivity]
        | exists 4%nat; split; [lia | vm_compute; reflexivity]
        | exists 5%nat; split; [lia | vm_compute; reflexivity]
        | exists 6%nat; split; [lia | vm_compute; reflexivity]
        | exists 7%nat; split; [lia | vm_compute; reflexivity]
        | exists 8%nat; split; [lia | vm_compute; reflexivity]
        | exists 9%nat; split; [lia | vm_compute; reflexivity]
        | exists 10%nat; split; [lia | vm_compute; reflexivity]
        | exists 11%nat; split; [lia | vm_compute; reflexivity]
        | exists 12%nat; split; [lia | vm_compute; reflexivity]
        | exists 13%nat; split; [lia | vm_compute; reflexivity]
        | exists 14%nat; split; [lia | vm_compute; reflexivity]
        | exists 15%nat; split; [lia | vm_compute; reflexivity] ].

Lemma table_angles :
  Forall (fun kv => exists i : nat,
              (i < 16)%nat /\ float_of_num (snd kv) = Ok (compass_angle i))
         WIND_DIRECTION.
Proof. unfold WIND_DIRECTION; repeat constructor; cbn [snd]; find_angle. Qed.

(** X2.  Whatever the input, [str2windir] returns the sentinel or one of
    the sixteen multiples of 22.5 degrees from 0 to 337.5. *)
Theorem str2windir_range (c : option pystr) :
  exists v, str2windir c = Ok v
            /\ (v = MISSING_VALUE
                \/ exists i : nat,
                    (i < 16)%nat
                    /\ float_of_num v = Ok (compass_angle i)).
Proof.
  destruct (Converters.str2windir_total c) as [v Hv].
  exists v; split; [exact Hv|].
  apply str2windir_lookup_iff in Hv.
  destruct Hv as [(s & _ & Hin) | (-> & _)]; [right|left; reflexivity].
  pose proof table_angles as Hall; rewrite Forall_forall in Hall.
  exact (Hall _ Hin).
Qed.

(** ** Sign of the irradiance *)

Lemma binary_round_aux_not_negative (mx ex : Z) (lx : location) :
  not_negative (binary_round_aux prec emax false mx ex lx) = true.
Proof.
  unfold binary_round_aux.
  destruct (shr_fexp prec emax mx ex lx) as [mrs' e'].
  destruct (shr_fexp prec emax _ e' loc_Exact) as [mrs'' e''].
  destruct (shr_m mrs''); [reflexivity| |reflexivity].
  destruct (e'' <=? emax - prec)%Z; reflexivity.
Qed.

Lemma leb_zero_not_negative (x : float) :
  (0 <=? x)%float = true ->
  not_negative (Prim2SF x) = true /\ Prim2SF x <> S754_nan.
Proof.
  rewrite leb_spec; change (Prim2SF 0) with (S754_zero false).
  destruct (Prim2SF x) as [s|s| |s m e]; try destruct s; cbv;
    split; congruence.
Qed.

Lemma mul_positive_not_negative (X : spec_float) (m : positive) (e : Z) :
  not_negative X = true -> X <> S754_nan ->
  not_negative (SFmul prec emax X (S754_finite false m e)) = true.
Proof.
  destruct X as [s|s| |s mx ex]; cbn [not_negative SFmul]; intros Hs Hn.
  - reflexivity.
  - rewrite xorb_false_r; exact Hs.
  - congruence.
  - apply negb_true_iff in Hs; subst s; cbn [xorb].
    apply binary_round_aux_not_negative.
Qed.

Lemma div_positive_not_negative (X : spec_float) (m : positive) (e : Z) :
  not_negative X = true ->
  not_negative (SFdiv prec emax X (S754_finite false m e)) = true.
Proof.
  destruct X as [s|s| |s mx ex]; cbn [not_negative SFdiv]; intros Hs.
  - reflexivity.
  - rewrite xorb_false_r; exact Hs.
  - reflexivity.
  - apply negb_true_iff in Hs; subst s; cbn [xorb].
    destruct (SFdiv_core_binary prec emax (Z.pos mx) ex (Z.pos m) e)
      as [[mz ez] lz].
    apply binary_round_aux_not_negative.
Qed.

Lemma not_negative_ltb (y : float) :
  not_negative (Prim2SF y) = true -> (y <? 0)%float = false.
Proof.
  rewrite ltb_spec; change (Prim2SF 0) with (S754_zero false).
  destruct (Prim2SF y) as [s|s| |s m e]; try destruct s; cbv; congruence.
Qed.

Lemma scaled_not_negative (x : float) :
  (0 <=? x)%float = true -> (x * 1000000 / 3600 <? 0)%float = false.
Proof.
  intros Hx; apply not_negative_ltb.
  destruct (leb_zero_not_negative x Hx) as [Hs Hn].
  rewrite div_spec, mul_spec; unfold SF64div, SF64mul.
  assert (E1 : exists m e, Prim2SF 1000000 = S754_finite false m e)
    by (vm_compute; eauto).
  assert (E2 : exists m e, Prim2SF 3600 = S754_finite false m e)
    by (vm_compute; eauto).
  destruct E1 as (m1 & e1 & ->); destruct E2 as (m2 & e2 & ->).
  apply div_positive_not_negative, mul_positive_not_negative; assumption.
Qed.

(** X3.  The irradiance field, [mj2w(str2float(cell))], is computed without
    error for every cell and is a float that is not below zero; so the
    sentinel -9999 never appears in that column (unreadable text gives
    0.0 there). *)
Theorem irradiance_not_negative (c : option pystr) :
  exists y : float,
    (x <- str2float c ;; mj2w x)%py = Ok (PFloat y)
    /\ (y <? 0)%float = false.
Proof.
  destruct (Converters.str2float_total c) as [x [Hx [-> | [f ->]]]];
    rewrite Hx; cbn [bind].
  - exists 0%float; split; reflexivity.
  - rewrite Converters.mj2w_float.
    destruct (0 <=? f)%float eqn:E.
    + eexists; split; [reflexivity|apply scaled_not_negative; exact E].
    + exists 0%float; split; reflexivity.
Qed.

(** X1.  [str2windir] never raises.  It returns a value of the compass
    table exactly when the cleaned text is a key of the table, and the
    sentinel for absent input and for every text whose cleaned form is not
    a key. *)
Theorem str2windir_recognised (c : option pystr) (v : pynum) :
  str2windir c = Ok v <->
  (exists s, c = Some s /\ In (cleaned s, v) WIND_DIRECTION)
  \/ (v = MISSING_VALUE
      /\ (c = None
          \/ exists s, c = Some s /\ ~ In (cleaned s) compass_keys)).
Proof. exact (str2windir_lookup_iff c v). Qed.

End ConverterFacts.

(* ================================================================== *)
(** * Further properties of the row extractor *)
(* ================================================================== *)

Module RowFacts.
Import Py Amedas Spec.

Section Extract.

Variable d : date.

(** The accumulator is only ever extended. *)
Lemma rows_loop_acc (trs : list tr) :
  forall acc,
    rows_loop d trs acc
    = (recs <- rows_loop d trs [] ;; Ok (acc ++ recs))%py.
Proof.
  induction trs as [|tds rest IH]; intros acc; cbn [rows_loop].
  - cbn [bind]; rewrite app_nil_r; reflexivity.
  - destruct (List.length tds <? 14)%nat; [apply IH|].
    destruct (data_row d tds) as [row|e]; cbn [bind]; [|reflexivity].
    rewrite (IH (acc ++ [row])), (IH ([] ++ [row])).
    destruct (rows_loop d rest []) as [recs|e]; cbn [bind]; [|reflexivity].
    rewrite <- app_assoc; reflexivity.
Qed.

Lemma rows_loop_app (r1 r2 : list tr) :
  forall acc,
    rows_loop d (r1 ++ r2) acc
    = (a <- rows_loop d r1 acc ;; rows_loop d r2 a)%py.
Proof.
  induction r1 as [|tds rest IH]; intros acc; cbn [app rows_loop].
  - reflexivity.
  - destruct (List.length tds <? 14)%nat; [apply IH|].
    destruct (data_row d tds) as [row|e]; cbn [bind]; [apply IH|reflexivity].
Qed.

(** X4.  A table with no more than its two header rows, or with fewer rows
    still, gives no record and no error. *)
Theorem extract_rows_headers_only (t : table) :
  (List.length t <= 2)%nat -> extract_rows d t = Ok [].
Proof.
  intros H; unfold extract_rows.
  destruct t as [|h1 [|h2 [|r rest]]]; try reflexivity.
  simpl in H; lia.
Qed.

(** X5.  Extraction goes row by row: the records of a table whose data
    rows are [r1] followed by [r2] are the records of [r1] followed by the
    records of [r2]. *)
Theorem extract_rows_app (h1 h2 : tr) (r1 r2 : list tr) :
  exists a b,
    extract_rows d (h1 :: h2 :: r1) = Ok a
    /\ extract_rows d (h1 :: h2 :: r2) = Ok b
    /\ extract_rows d (h1 :: h2 :: r1 ++ r2) = Ok (a ++ b).
Proof.
  unfold extract_rows; cbn [skipn].
  destruct (Rows.rows_loop_spec d r1 []) as [a [Ha _]].
  destruct (Rows.rows_loop_spec d r2 []) as [b [Hb _]].
  cbn [app] in Ha, Hb.
  exists a, b; split; [exact Ha|]. split; [exact Hb|].
  rewrite rows_loop_app, Ha; cbn [bind].
  rewrite rows_loop_acc, Hb; reflexivity.
Qed.

(** X6.  A row with fewer than 14 cells leaves no trace in the output,
    wherever it stands among the data rows. *)
Theorem extract_rows_skips_short (h1 h2 short : tr) (r1 r2 : list tr) :
  (List.length short < 14)%nat ->
  extract_rows d (h1 :: h2 :: r1 ++ short :: r2)
  = extract_rows d (h1 :: h2 :: r1 ++ r2).
Proof.
  intros Hshort; unfold extract_rows; cbn [skipn].
  rewrite !rows_loop_app.
  destruct (rows_loop d r1 []) as [a|e]; cbn [bind]; [|reflexivity].
  cbn [rows_loop].
  apply Nat.ltb_lt in Hshort; rewrite Hshort; reflexivity.
Qed.

(** X7.  Only the first 14 cells of a row are read: cells after them
    (weather, cloud cover, visibility) do not change the record. *)
Theorem data_row_ignores_extra_cells (tds extra : tr) :
  (14 <= List.length tds)%nat ->
  data_row d (tds ++ extra) = data_row d tds.
Proof.
  intros Hlen.
  destruct tds
    as [|c0 [|c1 [|c2 [|c3 [|c4 [|c5 [|c6 [|c7 [|c8 [|c9 [|c10 [|c11 [|c12
        [|c13 rest]]]]]]]]]]]]]];
    try (simpl in Hlen; lia).
  reflexivity.
Qed.

End Extract.

Lemma extract_rows_headers_only_witness :
  (List.length [sample_row; sample_row] <= 2)%nat
  /\ extract_rows sample_date [sample_row; sample_row] = Ok [].
Proof.
  split; [simpl; lia|].
  apply (extract_rows_headers_only sample_date [sample_row; sample_row]).
  simpl; lia.
Defined.

Lemma extract_rows_skips_short_witness :
  (List.length [Some (u "1"); None] < 14)%nat
  /\ extract_rows sample_date
       ([] :: [] :: [sample_row] ++ [Some (u "1"); None] :: [sample_row])
     = extract_rows sample_date ([] :: [] :: [sample_row] ++ [sample_row]).
Proof.
  split; [simpl; lia|].
  apply (extract_rows_skips_short sample_date [] [] [Some (u "1"); None]
                                  [sample_row] [sample_row]).
  simpl; lia.
Defined.

Lemma data_row_ignores_extra_cells_witness :
  (14 <= List.length sample_row)%nat
  /\ data_row sample_date (sample_row ++ [Some (u "晴"); None; Some (u "20.0")])
     = data_row sample_date sample_row.
Proof.
  split; [simpl; lia|].
  apply (data_row_ignores_extra_cells sample_date sample_row
           [Some (u "晴"); None; Some (u "20.0")]).
  simpl; lia.
Defined.

End RowFacts.

(* ================================================================== *)
(** * Further properties of the fetcher and the orchestrator *)
(* ================================================================== *)

Module ScrapingFacts.
Import Py Amedas Spec.

(** The [except] clauses of [scraping] make no request. *)
Lemma handlers_frame {A} (e : exn) (w : world) :
  exists w',
    select_handler
      [ (is_URLError, fun e : exn =>
           (print (MsgURLError (reason_of e)) ;; @sys_exit A 1)%io);
        (is_Exception, fun e : exn =>
           (print (MsgError e) ;; print MsgRerun ;; @sys_exit A 1)%io) ]
      e w
    = (Raise (if is_Exception e then SystemExit 1 else e), w')
    /\ net_calls w' = net_calls w.
Proof. destruct e; eexists; split; reflexivity. Qed.

Lemma extract_rows_complete (d : date) (t : table) :
  exists recs,
    extract_rows d t = Ok recs
    /\ Forall (fun rec => List.length rec = 15%nat) recs.
Proof.
  unfold extract_rows.
  destruct (Rows.rows_loop_spec d (skipn 2 t) []) as [recs [Hloop Hall]].
  exists recs; split; [exact Hloop|].
  apply (Rows.records_complete d (filter full_row (skipn 2 t))); [|exact Hall].
  apply Forall_forall; intros tds Hin.
  apply filter_In in Hin; apply Rows.full_row_length; tauto.
Qed.

Lemma records_dated (d : date) (kept : list tr) (recs : list (list pyobj)) :
  Forall (fun tds => (14 <= List.length tds)%nat) kept ->
  Forall2 (fun tds rec => data_row d tds = Ok rec) kept recs ->
  Forall (day_record d) recs.
Proof.
  intros Hfull Hall; induction Hall as [|tds rec l l' Hrow _ IH];
    [constructor|].
  inversion Hfull as [|? ? Hlen Hrest]; subst.
  constructor; [|exact (IH Hrest)].
  destruct (Rows.data_row_values d tds Hlen)
    as (v1 & v2 & v3 & v4 & v5 & v6 & v7 & v8 & v9 & v10 & x11 & v11
        & v12 & v13 & Heq & _).
  rewrite Heq in Hrow; injection Hrow as <-; split; reflexivity.
Qed.

Lemma extract_rows_dated (d : date) (t : table) :
  exists recs,
    extract_rows d t = Ok recs /\ Forall (day_record d) recs.
Proof.
  unfold extract_rows.
  destruct (Rows.rows_loop_spec d (skipn 2 t) []) as [recs [Hloop Hall]].
  exists recs; split; [exact Hloop|].
  apply (records_dated d (filter full_row (skipn 2 t))); [|exact Hall].
  apply Forall_forall; intros tds Hin.
  apply filter_In in Hin; apply Rows.full_row_length; tauto.
Qed.

Ltac by_handler A :=
  cbv beta iota delta [liftM retM];
  match goal with
  | |- context [select_handler ?hs ?e ?w] =>
    let w' := fresh "w" in
    let H := fresh "H" in
    let Hc := fresh "Hc" in
    destruct (@handlers_frame A e w) as [w' [H Hc]];
    rewrite H; cbn [fst snd]
  end.

Section Scraping.

Variable html : Type.
Variable urlopen_outcome : nat -> string -> result (response html).
Variable BeautifulSoup : html -> result soup.

(** X8.  With a budget of zero or less the fetcher makes no request, prints
    and sleeps nothing, and raises [Exception] at once. *)
Theorem fetch_without_budget
        (url : string) (max_retries : Z) (backoff_factor : float) (w : world) :
  (max_retries <= 0)%Z ->
  fetch_url_with_retry html urlopen_outcome url max_retries backoff_factor w
  = (Raise (Exception_ (exhausted_message max_retries)), w).
Proof.
  intros H; unfold fetch_url_with_retry, range.
  replace (Z.to_nat max_retries) with 0%nat by lia.
  reflexivity.
Qed.

(** All requests of [scraping] are those of its fetch. *)
Lemma scraping_calls (url : string) (d : date) (w : world) :
  net_calls (snd (scraping html urlopen_outcome BeautifulSoup url d w))
  = net_calls (snd (fetch_url_with_retry html urlopen_outcome url
                                         MAX_RETRIES BACKOFF_FACTOR w)).
Proof.
  unfold scraping, fetch_and_validate.
  rewrite Orchestrator.bindM_run, Orchestrator.tryM_run,
    Orchestrator.bindM_run.
  destruct (fetch_url_with_retry html urlopen_outcome url MAX_RETRIES
                                 BACKOFF_FACTOR w) as [[response|e] w1];
    cbn [snd]; [|by_handler html; assumption].
  Orchestrator.run_io.
  destruct (read html response) as [page|e]; [|by_handler html; assumption].
  Orchestrator.run_io.
  destruct (negb (getcode html response =? 200)%Z); [reflexivity|].
  Orchestrator.run_io.
  destruct (BeautifulSoup page) as [doc|e] eqn:Hdoc;
    [|by_handler html; assumption].
  Orchestrator.run_io.
  destruct (negb (soup_html doc) || negb (soup_head doc)
            || negb (soup_body doc)); [reflexivity|].
  Orchestrator.run_io; rewrite Hdoc; cbv beta iota.
  destruct (soup_find doc "table" "data2_s") as [t|]; reflexivity.
Qed.

Lemma scraping_calls_bounds (url : string) (d : date) (w : world) :
  let w' := snd (scraping html urlopen_outcome BeautifulSoup url d w) in
  (net_calls w + 1 <= net_calls w' <= net_calls w + 3)%nat.
Proof.
  cbv zeta; rewrite scraping_calls.
  destruct (fetch_url_with_retry html urlopen_outcome url MAX_RETRIES
                                 BACKOFF_FACTOR w) as [res w1] eqn:Hrun.
  unfold fetch_url_with_retry, range in Hrun.
  destruct (Fetch.retry_loop_spec html urlopen_outcome url MAX_RETRIES
              BACKOFF_FACTOR ltac:(unfold MAX_RETRIES; lia)
              Fetch.default_delays_accepted
              (Z.to_nat MAX_RETRIES) 0 w res w1 Hrun)
    as (k & Hk & _ & Hcalls & _).
  cbn [snd]; rewrite Hcalls.
  change (Z.to_nat MAX_RETRIES) with 3%nat in *; lia.
Qed.

(** X9.  For one date [scraping] calls [urlopen] at least once and at most
    three times, whatever the outcome. *)
Theorem scraping_request_budget (url : string) (d : date) (w : world) :
  let w' := snd (scraping html urlopen_outcome BeautifulSoup url d w) in
  (net_calls w + 1 <= net_calls w' <= net_calls w + 3)%nat.
Proof. exact (scraping_calls_bounds url d w). Qed.

(** The records [scraping] returns are complete and carry its date. *)
Lemma scraping_records (url : string) (d : date) (w : world) :
  match fst (scraping html urlopen_outcome BeautifulSoup url d w) with
  | Ok recs => Forall (day_record d) recs
  | Raise _ => True
  end.
Proof.
  unfold scraping, fetch_and_validate.
  rewrite Orchestrator.bindM_run, Orchestrator.tryM_run,
    Orchestrator.bindM_run.
  destruct (fetch_url_with_retry html urlopen_outcome url MAX_RETRIES
                                 BACKOFF_FACTOR w) as [[response|e] w1];
    [|by_handler html; exact I].
  Orchestrator.run_io.
  destruct (read html response) as [page|e]; [|by_handler html; exact I].
  Orchestrator.run_io.
  destruct (negb (getcode html response =? 200)%Z); [exact I|].
  Orchestrator.run_io.
  destruct (BeautifulSoup page) as [doc|e] eqn:Hdoc;
    [|by_handler html; exact I].
  Orchestrator.run_io.
  destruct (negb (soup_html doc) || negb (soup_head doc)
            || negb (soup_body doc)); [exact I|].
  Orchestrator.run_io; rewrite Hdoc; cbv beta iota.
  destruct (soup_find doc "table" "data2_s") as [t|]; [|exact I].
  cbn [fst]; destruct (extract_rows_dated d t) as [recs [-> Hall]].
  exact Hall.
Qed.

(** The collaborators raise instances of [Exception] only. *)
Hypothesis urlopen_raises :
  forall n url e, urlopen_outcome n url = Raise e -> is_Exception e = true.
Hypothesis read_raises :
  forall n url r e,
    urlopen_outcome n url = Ok r -> read html r = Raise e ->
    is_Exception e = true.
Hypothesis BeautifulSoup_raises :
  forall page e, BeautifulSoup page = Raise e -> is_Exception e = true.

Lemma scraping_outcomes (url : string) (d : date) (w : world) :
  (exists recs,
      fst (scraping html urlopen_outcome BeautifulSoup url d w) = Ok recs
      /\ Forall (fun rec => List.length rec = 15%nat) recs)
  \/ fst (scraping html urlopen_outcome BeautifulSoup url d w)
     = Raise (SystemExit 1).
Proof.
  unfold scraping, fetch_and_validate.
  rewrite Orchestrator.bindM_run, Orchestrator.tryM_run,
    Orchestrator.bindM_run.
  destruct (fetch_url_with_retry html urlopen_outcome url MAX_RETRIES
                                 BACKOFF_FACTOR w) as [res w1] eqn:Hrun.
  unfold fetch_url_with_retry, range in Hrun.
  destruct (Fetch.retry_loop_spec html urlopen_outcome url MAX_RETRIES
              BACKOFF_FACTOR ltac:(unfold MAX_RETRIES; lia)
              Fetch.default_delays_accepted
              (Z.to_nat MAX_RETRIES) 0 w res w1 Hrun)
    as (k & _ & _ & _ & _ & Hres).
  destruct res as [response|e].
  - destruct Hres as [_ Hout].
    Orchestrator.run_io.
    destruct (read html response) as [page|e] eqn:Hread.
    + Orchestrator.run_io.
      destruct (negb (getcode html response =? 200)%Z);
        [right; reflexivity|].
      Orchestrator.run_io.
      destruct (BeautifulSoup page) as [doc|e] eqn:Hdoc.
      * Orchestrator.run_io.
        destruct (negb (soup_html doc) || negb (soup_head doc)
                  || negb (soup_body doc)); [right; reflexivity|].
        Orchestrator.run_io; rewrite Hdoc; cbv beta iota.
        destruct (soup_find doc "table" "data2_s") as [t|];
          [|right; reflexivity].
        left; cbn [fst]; apply extract_rows_complete.
      * by_handler html.
        rewrite (BeautifulSoup_raises page e Hdoc); right; reflexivity.
    + by_handler html.
      rewrite (read_raises _ _ _ e Hout Hread); right; reflexivity.
  - by_handler html.
    destruct Hres as [[_ ->] | (_ & Hout & _)]; [right; reflexivity|].
    rewrite (urlopen_raises _ _ _ Hout); right; reflexivity.
Qed.

(** X10.  [scraping] lets no exception of its collaborators reach its
    caller: it either returns a list of records, each with 15 fields, or
    ends the process with status 1. *)
Theorem scraping_returns_or_exits (url : string) (d : date) (w : world) :
  (exists recs,
      fst (scraping html urlopen_outcome BeautifulSoup url d w) = Ok recs
      /\ Forall (fun rec => List.length rec = 15%nat) recs)
  \/ fst (scraping html urlopen_outcome BeautifulSoup url d w)
     = Raise (SystemExit 1).
Proof. exact (scraping_outcomes url d w). Qed.

End Scraping.

Lemma fetch_without_budget_witness :
  (0 <= 0)%Z
  /\ fetch_url_with_retry unit flaky sample_url 0 0.5 initial_world
     = (Raise (Exception_ (exhausted_message 0)), initial_world).
Proof.
  split; [lia|].
  apply (fetch_without_budget unit flaky sample_url 0 0.5%float initial_world).
  lia.
Defined.

Lemma scraping_returns_or_exits_witness :
  (forall n url e, flaky n url = Raise e -> is_Exception e = true)
  /\ (forall n url r e,
         flaky n url = Ok r -> read unit r = Raise e -> is_Exception e = true)
  /\ (forall page e, parse_complete page = Raise e -> is_Exception e = true)
  /\ ((exists recs,
          fst (scraping unit flaky parse_complete sample_url sample_date
                        initial_world) = Ok recs
          /\ Forall (fun rec => List.length rec = 15%nat) recs)
      \/ fst (scraping unit flaky parse_complete sample_url sample_date
                       initial_world) = Raise (SystemExit 1)).
Proof.
  assert (H1 : forall n url e, flaky n url = Raise e -> is_Exception e = true).
  { intros n url e; unfold flaky; destruct (n <? 2)%nat; intros H;
      [injection H as <-; reflexivity | discriminate]. }
  assert (H2 : forall n url r e,
             flaky n url = Ok r -> read unit r = Raise e ->
             is_Exception e = true).
  { intros n url r e; unfold flaky; destruct (n <? 2)%nat; intros H;
      [discriminate | injection H as <-; discriminate]. }
  assert (H3 : forall page e,
             parse_complete page = Raise e -> is_Exception e = true).
  { intros page e; discriminate. }
  split; [exact H1|]. split; [exact H2|]. split; [exact H3|].
  exact (scraping_returns_or_exits unit flaky parse_complete H1 H2 H3
           sample_url sample_date initial_world).
Defined.


End ScrapingFacts.

(* ================================================================== *)
(** * Calendar arithmetic *)
(* ================================================================== *)

Module Calendar.
Import Py Amedas Spec.

Local Open Scope Z_scope.

Lemma month_cases (m : Z) :
  1 <= m <= 12 ->
  m = 1 \/ m = 2 \/ m = 3 \/ m = 4 \/ m = 5 \/ m = 6 \/ m = 7 \/ m = 8
  \/ m = 9 \/ m = 10 \/ m = 11 \/ m = 12.
Proof. lia. Qed.

Ltac each_month m H :=
  destruct (month_cases m H)
    as [-> | [-> | [-> | [-> | [-> | [-> | [-> | [-> | [-> | [-> | [-> | ->]
       ]]]]]]]]]].

Lemma valid_date_bounds (d : date) :
  valid_date d = true ->
  1 <= year d <= 9999 /\ 1 <= month d <= 12
  /\ 1 <= day d <= days_in_month (year d) (month d).
Proof.
  unfold valid_date; rewrite !andb_true_iff, !Z.leb_le; tauto.
Qed.

Lemma valid_date_of_bounds (d : date) :
  1 <= year d <= 9999 -> 1 <= month d <= 12 ->
  1 <= day d <= days_in_month (year d) (month d) ->
  valid_date d = true.
Proof.
  intros; unfold valid_date; rewrite !andb_true_iff, !Z.leb_le; tauto.
Qed.

Lemma days_in_month_bounds (y m : Z) : 28 <= days_in_month y m <= 31.
Proof.
  unfold days_in_month.
  repeat match goal with
         | |- context [match ?x with _ => _ end] => destruct x
         end; lia.
Qed.

Lemma days_in_month_length (y m : Z) :
  days_in_month y m = month_length (is_leap y) m.
Proof. reflexivity. Qed.

Lemma days_before_month_length (y m : Z) :
  days_before_month y m
  = fold_right Z.add 0
      (map (month_length (is_leap y))
           (map Z.of_nat (seq 1 (Z.to_nat (m - 1))))).
Proof. reflexivity. Qed.

Lemma days_before_month_next (y m : Z) :
  1 <= m <= 11 ->
  days_before_month y (m + 1) = days_before_month y m + days_in_month y m.
Proof.
  intros H.
  assert (H' : 1 <= m <= 12) by lia.
  rewrite !days_before_month_length, days_in_month_length.
  each_month m H'; try lia; destruct (is_leap y); vm_compute; reflexivity.
Qed.

Lemma days_before_year_next (y : Z) :
  days_before_year (y + 1) = days_before_year y + days_in_year y.
Proof.
  unfold days_before_year, days_in_year, is_leap.
  replace (y + 1 - 1) with y by lia.
  destruct (Z.eqb_spec (y mod 4) 0), (Z.eqb_spec (y mod 100) 0),
    (Z.eqb_spec (y mod 400) 0); cbn [andb orb negb];
    Z.div_mod_to_equations; lia.
Qed.

Lemma december_end (y : Z) :
  days_before_month y 12 + 31 = days_in_year y.
Proof.
  rewrite days_before_month_length; unfold days_in_year.
  destruct (is_leap y); vm_compute; reflexivity.
Qed.

(** One day later the ordinal is one more. *)
Lemma add_one_day_ordinal (d d' : date) :
  valid_date d = true ->
  add_one_day d = Ok d' ->
  valid_date d' = true /\ toordinal d' = toordinal d + 1.
Proof.
  intros Hv; apply valid_date_bounds in Hv; destruct Hv as (Hy & Hm & Hd).
  unfold add_one_day.
  destruct (Z.ltb_spec (day d) (days_in_month (year d) (month d))).
  - intros H'; injection H' as <-; split.
    + apply valid_date_of_bounds; cbn [year month day]; lia.
    + unfold toordinal; cbn [year month day]; lia.
  - destruct (Z.ltb_spec (month d) 12).
    + intros H'; injection H' as <-; split.
      * pose proof (days_in_month_bounds (year d) (month d + 1)).
        apply valid_date_of_bounds; cbn [year month day]; lia.
      * unfold toordinal; cbn [year month day].
        rewrite days_before_month_next by lia; lia.
    + destruct (Z.ltb_spec (year d) 9999); [|discriminate].
      intros H'; injection H' as <-; split.
      * apply valid_date_of_bounds; cbn [year month day]; try lia.
        change (days_in_month (year d + 1) 1) with 31; lia.
      * unfold toordinal; cbn [year month day].
        assert (Hm12 : month d = 12) by lia.
        rewrite Hm12 in Hd, H |- *.
        change (days_in_month (year d) 12) with 31 in Hd, H.
        assert (Hd31 : day d = 31) by lia.
        rewrite days_before_year_next, Hd31.
        pose proof (december_end (year d)).
        change (days_before_month (year d + 1) 1) with 0; lia.
Qed.

(** The increment only fails on the last day of year 9999. *)
Lemma add_one_day_overflow (d : date) (e : exn) :
  valid_date d = true ->
  add_one_day d = Raise e ->
  e = OverflowError /\ toordinal d = toordinal max_date.
Proof.
  intros Hv; apply valid_date_bounds in Hv; destruct Hv as (Hy & Hm & Hd).
  unfold add_one_day.
  destruct (Z.ltb_spec (day d) (days_in_month (year d) (month d)));
    [discriminate|].
  destruct (Z.ltb_spec (month d) 12); [discriminate|].
  destruct (Z.ltb_spec (year d) 9999); [discriminate|].
  intros H'; injection H' as <-; split; [reflexivity|].
  assert (Hy9 : year d = 9999) by lia.
  assert (Hm12 : month d = 12) by lia.
  rewrite Hm12 in Hd, H.
  change (days_in_month (year d) 12) with 31 in Hd, H.
  assert (Hd31 : day d = 31) by lia.
  destruct d as [y m dd]; cbn [year month day] in *; subst.
  vm_compute; reflexivity.
Qed.

Lemma date_after_ordinal (i : nat) :
  forall d d',
    valid_date d = true ->
    date_after i d = Ok d' ->
    valid_date d' = true /\ toordinal d' = toordinal d + Z.of_nat i.
Proof.
  induction i as [|i IH]; intros d d' Hv; cbn [date_after].
  - intros H; injection H as <-; split; [exact Hv|lia].
  - destruct (add_one_day d) as [next|e] eqn:E; cbn [bind]; [|discriminate].
    intros H.
    destruct (add_one_day_ordinal d next Hv E) as [Hv' Ho].
    destruct (IH next d' Hv' H) as [Hv'' Ho'].
    split; [exact Hv''|lia].
Qed.

Lemma days_before_year_mono (y1 y2 : Z) :
  y1 <= y2 -> days_before_year y1 <= days_before_year y2.
Proof.
  unfold days_before_year; intros H.
  Z.div_mod_to_equations; lia.
Qed.

Lemma days_before_month_mono (y m1 m2 : Z) :
  1 <= m1 <= 12 -> 1 <= m2 <= 12 -> m1 < m2 ->
  days_before_month y m1 + days_in_month y m1 <= days_before_month y m2.
Proof.
  intros H1 H2 Hlt.
  rewrite !days_before_month_length, days_in_month_length.
  each_month m1 H1; each_month m2 H2; try lia;
    destruct (is_leap y); vm_compute; discriminate.
Qed.

Lemma ordinal_in_year (d : date) :
  valid_date d = true ->
  days_before_year (year d) + 1 <= toordinal d
  <= days_before_year (year d) + days_in_year (year d).
Proof.
  intros Hv; apply valid_date_bounds in Hv; destruct Hv as (Hy & Hm & Hd).
  unfold toordinal.
  assert (Hpos : 0 <= days_before_month (year d) (month d)).
  { destruct (Z.eq_dec (month d) 1) as [E|E].
    - rewrite E; change (days_before_month (year d) 1) with 0; lia.
    - pose proof (days_before_month_mono (year d) 1 (month d)
                    ltac:(lia) Hm ltac:(lia)) as H.
      change (days_before_month (year d) 1) with 0 in H.
      pose proof (days_in_month_bounds (year d) 1); lia. }
  assert (Hend : days_before_month (year d) (month d)
                 + days_in_month (year d) (month d)
                 <= days_in_year (year d)).
  { destruct (Z.eq_dec (month d) 12) as [E|E].
    - rewrite E; change (days_in_month (year d) 12) with 31.
      rewrite december_end; lia.
    - pose proof (days_before_month_mono (year d) (month d) 12
                    Hm ltac:(lia) ltac:(lia)).
      pose proof (december_end (year d)); lia. }
  lia.
Qed.

(** The ordinal respects the order of dates. *)
Lemma toordinal_mono (a b : date) :
  valid_date a = true -> valid_date b = true ->
  date_gtb a b = false -> toordinal a <= toordinal b.
Proof.
  intros Ha Hb Hgt.
  pose proof (ordinal_in_year a Ha) as Ia.
  pose proof (ordinal_in_year b Hb) as Ib.
  apply valid_date_bounds in Ha, Hb.
  destruct Ha as (Hya & Hma & Hda); destruct Hb as (Hyb & Hmb & Hdb).
  unfold date_gtb in Hgt.
  apply orb_false_iff in Hgt; destruct Hgt as [Hy Hrest].
  apply Z.ltb_ge in Hy.
  destruct (Z.eqb_spec (year a) (year b)) as [Ey|Ey].
  - cbn [andb] in Hrest.
    apply orb_false_iff in Hrest; destruct Hrest as [Hm Hd].
    apply Z.ltb_ge in Hm.
    unfold toordinal; rewrite Ey.
    destruct (Z.eqb_spec (month a) (month b)) as [Em|Em].
    + cbn [andb] in Hd; apply Z.ltb_ge in Hd; rewrite Em; lia.
    + pose proof (days_before_month_mono (year b) (month a) (month b)
                    Hma Hmb ltac:(lia)).
      rewrite Ey in Hda; lia.
  - pose proof (days_before_year_mono (year a + 1) (year b) ltac:(lia)) as H.
    rewrite days_before_year_next in H; lia.
Qed.

(** Only the last day of year 9999 has the largest ordinal. *)
Lemma max_ordinal_overflows (d : date) :
  valid_date d = true ->
  toordinal d = toordinal max_date ->
  add_one_day d = Raise OverflowError.
Proof.
  intros Hv Hord.
  pose proof (ordinal_in_year d Hv) as Iy.
  apply valid_date_bounds in Hv; destruct Hv as (Hy & Hm & Hd).
  change (toordinal max_date) with 3652059 in Hord.
  assert (Ey : year d = 9999).
  { destruct (Z.eq_dec (year d) 9999) as [E|E]; [exact E|exfalso].
    pose proof (days_before_year_mono (year d + 1) 9999 ltac:(lia)) as H.
    rewrite days_before_year_next in H.
    change (days_before_year 9999) with 3651694 in H; lia. }
  unfold toordinal in Hord; rewrite Ey in Hord, Hd.
  change (days_before_year 9999) with 3651694 in Hord.
  assert (Em : month d = 12).
  { destruct (Z.eq_dec (month d) 12) as [E|E]; [exact E|exfalso].
    pose proof (days_before_month_mono 9999 (month d) 12
                  Hm ltac:(lia) ltac:(lia)) as H.
    change (days_before_month 9999 12) with 334 in H; lia. }
  rewrite Em in Hord, Hd.
  change (days_before_month 9999 12) with 334 in Hord.
  assert (Ed : day d = 31) by lia.
  destruct d as [y m dd]; cbn [year month day] in *; subst.
  reflexivity.
Qed.


End Calendar.

(* ================================================================== *)
(** * The range driver *)
(* ================================================================== *)

Module DriverFacts.
Import Py Amedas Spec.

Lemma bindD_run {A B} (c : D A) (k : A -> D B) (s : run) :
  bindD c k s =
  match c s with
  | (Ok a, s') => k a s'
  | (Raise e, s') => (Raise e, s')
  end.
Proof. reflexivity. Qed.

(** Writing rows appends them to the file. *)
Lemma writerows_run (rows : list (list pyobj)) :
  forall (s : run) (base : list (list pyobj)),
    csv s = Some base ->
    writerows rows s
    = (Ok tt, {| io := io s; csv := Some (base ++ rows);
                 notices := notices s |}).
Proof.
  induction rows as [|row rest IH]; intros s base Hcsv; cbn [writerows].
  - unfold retD; rewrite app_nil_r, <- Hcsv; destruct s; reflexivity.
  - rewrite bindD_run; unfold writerow at 1; rewrite Hcsv.
    rewrite (IH _ (base ++ [row])) by reflexivity.
    cbn [io notices]; rewrite <- app_assoc; reflexivity.
Qed.

Ltac sleep_refused Hrun cur data Hrecs :=
  injection Hrun as <- <-;
  exists [data]; cbn [List.concat List.length io csv notices net_calls];
  rewrite app_nil_r;
  split; [reflexivity|]; split; [lia|];
  split; [|split; [lia|split; [lia|split;
    [right; lia|split; [reflexivity|]]]]];
  [ intros [|[|?]] chunk Hnth; try discriminate;
    injection Hnth as <-; exists cur; split; [reflexivity|exact Hrecs]
  | left; exists 0%nat, cur; repeat split; auto; lia ].

Section Loop.

Variable html : Type.
Variable urlopen_outcome : nat -> string -> result (response html).
Variable BeautifulSoup : html -> result soup.
Variable prec_no block_no : Z.
Variable request_interval : pynum.

Local Abbreviation scraping_ :=
  (scraping html urlopen_outcome BeautifulSoup).
Local Abbreviation days_loop_ :=
  (days_loop html urlopen_outcome BeautifulSoup prec_no block_no
             request_interval).

(** One round of the loop. *)
Lemma days_loop_step (n : nat) (current_date : date) (s : run)
      (base : list (list pyobj)) :
  csv s = Some base ->
  days_loop_ (S n) current_date s =
  match scraping_ (day_url prec_no block_no current_date) current_date (io s)
  with
  | (Raise e, w1) =>
    (Raise e, {| io := w1; csv := csv s; notices := notices s |})
  | (Ok data_per_day, w1) =>
    match time_sleep_check request_interval with
    | Raise e =>
      (Raise e, {| io := w1; csv := Some (base ++ data_per_day);
                   notices := notices s |})
    | Ok _ =>
      let s3 := {| io := {| net_calls := net_calls w1;
                            trace := Sleep request_interval :: trace w1 |};
                   csv := Some (base ++ data_per_day);
                   notices := notices s |} in
      match add_one_day current_date with
      | Ok next => days_loop_ n next s3
      | Raise e => (Raise e, s3)
      end
    end
  end.
Proof.
  intros Hcsv; cbn [days_loop]; cbv zeta.
  rewrite bindD_run; unfold liftD at 1.
  destruct (scraping_ (day_url prec_no block_no current_date) current_date
                      (io s)) as [[data|e] w1]; [|reflexivity].
  rewrite bindD_run, (writerows_run data _ base) by exact Hcsv.
  rewrite bindD_run; unfold liftD at 1, sleep; cbn [io csv notices].
  destruct (time_sleep_check request_interval) as [[]|e]; [|reflexivity].
  rewrite bindD_run; unfold liftD at 1, liftM; cbn [io csv notices].
  destruct (add_one_day current_date); reflexivity.
Qed.

(** The loop, [n] rounds from [current_date]: the file grows by one block
    of records per completed day. *)
Lemma days_loop_spec (n : nat) :
  forall (current_date : date) (s : run) (base : list (list pyobj))
         (res : result unit) (s' : run),
    csv s = Some base ->
    days_loop_ n current_date s = (res, s') ->
    exists chunks : list (list (list pyobj)),
      csv s' = Some (base ++ List.concat chunks)
      /\ (List.length chunks <= n)%nat
      /\ (forall i chunk,
             nth_error chunks i = Some chunk ->
             exists dt, date_after i current_date = Ok dt
                        /\ Forall (day_record dt) chunk)
      /\ (net_calls (io s) + List.length chunks <= net_calls (io s'))%nat
      /\ (net_calls (io s') <= net_calls (io s) + 3 * n)%nat
      /\ (n = 0%nat \/ (net_calls (io s) + 1 <= net_calls (io s'))%nat)
      /\ notices s' = notices s
      /\ match res with
         | Ok _ =>
           List.length chunks = n
           /\ exists dt, date_after n current_date = Ok dt
         | Raise e =>
           (exists i dt,
               (i < n)%nat /\ List.length chunks = S i
               /\ date_after i current_date = Ok dt
               /\ (add_one_day dt = Raise e
                   \/ time_sleep_check request_interval = Raise e))
           \/ ((List.length chunks < n)%nat
               /\ exists dt w,
                   date_after (List.length chunks) current_date = Ok dt
                   /\ fst (scraping_ (day_url prec_no block_no dt) dt w)
                      = Raise e)
         end.
Proof.
  induction n as [|n IH]; intros cur s base res s' Hcsv Hrun.
  - cbn in Hrun; injection Hrun as <- <-.
    exists []; cbn [List.concat List.length]; rewrite app_nil_r.
    repeat split; auto; try lia; [|exists cur; reflexivity].
    intros [|i] chunk H; discriminate.
  - rewrite (days_loop_step n cur s base Hcsv) in Hrun.
    pose proof (ScrapingFacts.scraping_calls_bounds html urlopen_outcome
                  BeautifulSoup (day_url prec_no block_no cur) cur (io s))
      as Hcalls.
    pose proof (ScrapingFacts.scraping_records html urlopen_outcome
                  BeautifulSoup (day_url prec_no block_no cur) cur (io s))
      as Hrecs.
    destruct (scraping_ (day_url prec_no block_no cur) cur (io s))
      as [[data|e] w1] eqn:Hs; cbn [fst snd] in Hcalls, Hrecs.
    + destruct (time_sleep_check request_interval) as [[]|e] eqn:Hsleep;
        [cbv zeta in Hrun | sleep_refused Hrun cur data Hrecs].
      destruct (add_one_day cur) as [next|e] eqn:Hadd.
      * destruct (fun H => IH next _ (base ++ data) res s' H Hrun)
          as (chunks & Hfile & Hlen & Hdates & Hlow & Hup & _ & Hnot & Hres);
          [reflexivity|].
        cbn [io net_calls notices] in Hlow, Hup, Hnot.
        exists (data :: chunks); cbn [List.concat List.length].
        split; [rewrite Hfile, <- app_assoc; reflexivity|].
        split; [lia|]. split; [|split; [lia|split; [lia|split;
          [right; lia|split; [exact Hnot|]]]]].
        -- intros [|i] chunk Hnth; cbn [nth_error date_after] in *.
           ++ injection Hnth as <-; exists cur; split; [reflexivity|exact Hrecs].
           ++ rewrite Hadd; cbn [bind]; exact (Hdates i chunk Hnth).
        -- destruct res as [u|e].
           { destruct Hres as [Hl [dt Hd]]; split; [lia|].
             exists dt; cbn [date_after]; rewrite Hadd; exact Hd. }
           destruct Hres as [(i & dt & Hi & Hl & Hd & Ha)
                            | (Hl & dt & w & Hd & Hw)].
           ++ left; exists (S i), dt; cbn [date_after]; rewrite Hadd.
              repeat split; auto; lia.
           ++ right; split; [lia|]; exists dt, w; cbn [date_after].
              rewrite Hadd; split; assumption.
      * injection Hrun as <- <-.
        exists [data]; cbn [List.concat List.length io csv notices net_calls].
        rewrite app_nil_r.
        split; [reflexivity|]. split; [lia|].
        split; [|split; [lia|split; [lia|split;
          [right; lia|split; [reflexivity|]]]]].
        -- intros [|[|i]] chunk Hnth; try discriminate.
           injection Hnth as <-; exists cur; split; [reflexivity|exact Hrecs].
        -- left; exists 0%nat, cur; repeat split; auto; lia.
    + injection Hrun as <- <-.
      exists []; cbn [List.concat List.length io csv notices]; rewrite app_nil_r.
      split; [exact Hcsv|]. split; [lia|].
      split; [|split; [lia|split; [lia|split;
        [right; lia|split; [reflexivity|]]]]].
      * intros [|i] chunk Hnth; discriminate.
      * right; split; [lia|]; exists cur, (io s); split; [reflexivity|].
        rewrite Hs; reflexivity.
Qed.

End Loop.

Lemma date_after_succ (i : nat) :
  forall d, date_after (S i) d = (dt <- date_after i d ;; add_one_day dt)%py.
Proof.
  induction i as [|i IH]; intros d.
  - cbn [date_after bind]; destruct (add_one_day d); reflexivity.
  - change (date_after (S (S i)) d)
      with (next <- add_one_day d ;; date_after (S i) next)%py.
    cbn [date_after].
    destruct (add_one_day d) as [next|e]; cbn [bind]; [apply IH|reflexivity].
Qed.

Section CreateCsv.

Variable html : Type.
Variable urlopen_outcome : nat -> string -> result (response html).
Variable BeautifulSoup : html -> result soup.
Variable prec_no block_no : Z.
Variable start_date end_date : date.
Variable request_interval : pynum.

Local Abbreviation create_csv_ :=
  (create_csv html urlopen_outcome BeautifulSoup prec_no block_no
              start_date end_date request_interval).
Local Abbreviation total_days := (days_between start_date end_date + 1)%Z.

Lemma create_csv_run (s : run) :
  create_csv_ s =
  match days_loop html urlopen_outcome BeautifulSoup prec_no block_no
                  request_interval (Z.to_nat total_days) start_date
                  {| io := io s; csv := Some [fields]; notices := notices s |}
  with
  | (Ok _, s2) =>
    (Ok tt, {| io := io s2; csv := csv s2;
               notices := NoticeCompleted
                            (output_file prec_no block_no start_date end_date)
                          :: notices s2 |})
  | (Raise e, s2) => (Raise e, s2)
  end.
Proof.
  unfold create_csv; cbv zeta.
  rewrite bindD_run; unfold open_output at 1.
  rewrite bindD_run; unfold writerow at 1; cbn [io csv notices].
  rewrite bindD_run.
  destruct (days_loop _ _ _ _ _ _ _ _ _) as [[[]|e] s2]; reflexivity.
Qed.

(** What a run of [create_csv] leaves behind, in every outcome. *)
Lemma create_csv_spec (s : run) :
  exists chunks : list (list (list pyobj)),
    csv (snd (create_csv_ s)) = Some (fields :: List.concat chunks)
    /\ (List.length chunks <= Z.to_nat total_days)%nat
    /\ (forall i chunk,
           nth_error chunks i = Some chunk ->
           exists dt, date_after i start_date = Ok dt
                      /\ Forall (day_record dt) chunk)
    /\ (net_calls (io s) + List.length chunks
        <= net_calls (io (snd (create_csv_ s))))%nat
    /\ (net_calls (io (snd (create_csv_ s)))
        <= net_calls (io s) + 3 * Z.to_nat total_days)%nat
    /\ (Z.to_nat total_days = 0%nat
        \/ (net_calls (io s) + 1 <= net_calls (io (snd (create_csv_ s))))%nat)
    /\ match fst (create_csv_ s) with
       | Ok _ =>
         List.length chunks = Z.to_nat total_days
         /\ (exists dt, date_after (Z.to_nat total_days) start_date = Ok dt)
         /\ notices (snd (create_csv_ s))
            = NoticeCompleted
                (output_file prec_no block_no start_date end_date)
              :: notices s
       | Raise e =>
         notices (snd (create_csv_ s)) = notices s
         /\ ((exists i dt,
                 (i < Z.to_nat total_days)%nat
                 /\ date_after i start_date = Ok dt
                 /\ add_one_day dt = Raise e)
             \/ time_sleep_check request_interval = Raise e
             \/ (exists dt w,
                    fst (scraping html urlopen_outcome BeautifulSoup
                                  (day_url prec_no block_no dt) dt w)
                    = Raise e))
       end.
Proof.
  rewrite create_csv_run.
  destruct (days_loop html urlopen_outcome BeautifulSoup prec_no block_no
                      request_interval (Z.to_nat total_days) start_date
                      {| io := io s; csv := Some [fields];
                         notices := notices s |}) as [res s2] eqn:Hrun.
  destruct (fun H =>
              days_loop_spec html urlopen_outcome BeautifulSoup prec_no
                block_no request_interval (Z.to_nat total_days) start_date _
                [fields] res s2 H Hrun)
    as (chunks & Hfile & Hlen & Hdates & Hlow & Hup & Hone & Hnot & Hres);
    [reflexivity|].
  cbn [io notices] in Hlow, Hup, Hone, Hnot.
  exists chunks.
  destruct res as [[]|e]; cbn [fst snd io csv notices].
  - destruct Hres as [Hl Hd].
    repeat split; auto; rewrite Hnot; reflexivity.
  - repeat split; auto.
    destruct Hres
      as [(i & dt & Hi & _ & Hd & [Ha | Hsl]) | (_ & dt & w & _ & Hw)];
      [ left; exists i, dt; auto
      | right; left; exact Hsl
      | right; right; exists dt, w; exact Hw ].
Qed.




(** X14.  A run over [n] days makes at most [3 * n] requests. *)
Theorem create_csv_request_budget (s : run) :
  (net_calls (io (snd (create_csv_ s)))
   <= net_calls (io s) + 3 * Z.to_nat total_days)%nat.
Proof.
  destruct (create_csv_spec s) as (chunks & _ & _ & _ & _ & Hup & _).
  exact Hup.
Qed.

(** X15.  A range that ends on 9999-12-31 cannot be completed: after the
    last day the date can no longer be advanced, so the run ends with an
    exception and without the completion notice, even when every day was
    fetched and written. *)
Theorem create_csv_last_day_overflow (s : run) :
  valid_date start_date = true ->
  (toordinal start_date <= toordinal end_date)%Z ->
  toordinal end_date = toordinal max_date ->
  exists e,
    fst (create_csv_ s) = Raise e
    /\ notices (snd (create_csv_ s)) = notices s.
Proof.
  intros Hvalid Hle Hmax.
  destruct (create_csv_spec s) as (chunks & _ & _ & _ & _ & _ & _ & Hres).
  destruct (fst (create_csv_ s)) as [[]|e]; [exfalso|exists e; tauto].
  destruct Hres as (_ & (dt & Hdt) & _).
  unfold days_between in Hdt.
  remember (Z.to_nat (toordinal end_date - toordinal start_date + 1)) as n.
  destruct n as [|n]; [lia|].
  rewrite date_after_succ in Hdt.
  destruct (date_after n start_date) as [last|e] eqn:Hlast; [|discriminate].
  cbn [bind] in Hdt.
  destruct (Calendar.date_after_ordinal n start_date last Hvalid Hlast)
    as [Hv Hord].
  rewrite (Calendar.max_ordinal_overflows last Hv) in Hdt by lia.
  discriminate.
Qed.

(** The collaborators raise instances of [Exception] only. *)
Hypothesis urlopen_raises :
  forall n url e, urlopen_outcome n url = Raise e -> is_Exception e = true.
Hypothesis read_raises :
  forall n url r e,
    urlopen_outcome n url = Ok r -> read html r = Raise e ->
    is_Exception e = true.
Hypothesis BeautifulSoup_raises :
  forall page e, BeautifulSoup page = Raise e -> is_Exception e = true.



End CreateCsv.


Section Main.

Variable html : Type.
Variable urlopen_outcome : nat -> string -> result (response html).
Variable BeautifulSoup : html -> result soup.
Variable strptime_date : string -> result date.

Local Abbreviation main_ :=
  (main html urlopen_outcome BeautifulSoup strptime_date).



End Main.


(** ** Instances *)

Lemma sample_collaborators_raise :
  (forall n url e, flaky n url = Raise e -> is_Exception e = true)
  /\ (forall n url r e,
         flaky n url = Ok r -> read unit r = Raise e -> is_Exception e = true)
  /\ (forall page e, parse_complete page = Raise e -> is_Exception e = true).
Proof.
  split; [|split].
  - intros n url e; unfold flaky; destruct (n <? 2)%nat; intros H;
      [injection H as <-; reflexivity | discriminate].
  - intros n url r e; unfold flaky; destruct (n <? 2)%nat; intros H;
      [discriminate | injection H as <-; discriminate].
  - intros page e; discriminate.
Defined.


(** The run over 2000-01-31 and 2000-02-01 against the sample table: the
    header, then one row dated 31 January, then one dated 1 February. *)
Example create_csv_two_days :
  let run_end := create_csv unit flaky parse_sample 44 47662 january_31
                            february_1 (PFloat 1) initial_run in
  fst run_end = Ok tt
  /\ option_map (map row_date) (csv (snd run_end))
     = Some [None; Some january_31; Some february_1]
  /\ option_map (map (@List.length pyobj)) (csv (snd run_end))
     = Some [15; 15; 15]%nat.
Proof. vm_compute; repeat split. Qed.


Lemma create_csv_last_day_overflow_witness :
  valid_date max_date = true
  /\ (toordinal max_date <= toordinal max_date)%Z
  /\ toordinal max_date = toordinal max_date
  /\ exists e,
      fst (create_csv unit flaky parse_complete 44 47662 max_date max_date
                      (PFloat 1) initial_run) = Raise e
      /\ notices (snd (create_csv unit flaky parse_complete 44 47662 max_date
                                  max_date (PFloat 1) initial_run))
         = notices initial_run.
Proof.
  split; [reflexivity|]. split; [apply Z.le_refl|]. split; [reflexivity|].
  apply (create_csv_last_day_overflow unit flaky parse_complete 44 47662
           max_date max_date (PFloat 1) initial_run);
    [reflexivity | apply Z.le_refl | reflexivity].
Defined.




End DriverFacts.
